(** * NightModeBot: the quiet-hours session lifecycle of [bot.py]

    A shallow embedding of the store-facing part of [NightModeBot]
    (the three SQLite tables, the background time check, the purge in
    [end_night_mode], the capture path and the time settings), followed
    by the properties of the session lifecycle.

    Conventions.
    - A table is the list of its rows in scan order; a primary key is an
      invariant of the list, kept by the statements below.  SQL leaves the
      scan order of a SELECT without ORDER BY open: new rows are put last
      here, and no property depends on the order.
    - INTEGER columns are [Z], TEXT columns are [string] ([option string]
      where the column has no default and can be NULL).
    - The SQLite connection and the Telegram HTTP API are the environment:
      every statement can raise, every remote call answers ok or not.  Both
      are scripted in the world the program runs in.
    - Python characters are the characters of [string]; the default welcome
      text alone is written in UTF-8, and nothing measures it. *)

From Stdlib Require Import ZArith List String Ascii Bool Lia Arith.
From Stdlib Require Import DecimalString DecimalZ DecimalPos.
Import ListNotations.

Local Open Scope string_scope.
Local Open Scope Z_scope.

(** ** Python strings *)

Module PyStr.

(** [str(n)] for a Python int. *)
Definition str (n : Z) : string := NilZero.string_of_int (Z.to_int n).

(** [c in s] for a single character. *)
Fixpoint mem (c : ascii) (s : string) : bool :=
  match s with
  | EmptyString => false
  | String a s' => Ascii.eqb a c || mem c s'
  end.

(** [s[:n]] *)
Fixpoint slice_to (n : nat) (s : string) : string :=
  match n, s with
  | O, _ => EmptyString
  | S _, EmptyString => EmptyString
  | S n', String a s' => String a (slice_to n' s')
  end.

(** [p in s] for strings *)
Fixpoint contains (p s : string) : bool :=
  String.prefix p s ||
  match s with
  | EmptyString => false
  | String _ s' => contains p s'
  end.

(** The truth value of a string: it is not empty. *)
Definition nonempty (s : string) : bool :=
  match s with EmptyString => false | _ => true end.

End PyStr.

(** ** Session identities

    [session_id = f"{chat_id}_{datetime.now().strftime('%Y%m%d_%H%M')}"] *)

Definition make_session_id (chat_id : Z) (stamp : string) : string :=
  PyStr.str chat_id ++ "_" ++ stamp.

(** ** [is_valid_time]: [datetime.strptime(time_str, "%H:%M")]

    [strptime] compiles the format to the regular expression
    [(?P<H>2[0-3]|[0-1]\d|\d):(?P<M>[0-5]\d|\d)], matches it at the start of
    the string (alternatives in order, with backtracking) and raises
    [ValueError] when there is no match or when text remains after it. *)

Module Strptime.

Definition is_digit (c : ascii) : bool :=
  let n := nat_of_ascii c in (48 <=? n)%nat && (n <=? 57)%nat.

Definition in_range (lo hi : ascii) (c : ascii) : bool :=
  let n := nat_of_ascii c in
  (nat_of_ascii lo <=? n)%nat && (n <=? nat_of_ascii hi)%nat.

(** The alternatives of a directive, each returning the text after it. *)
Definition alt2 (p1 p2 : ascii -> bool) (s : string) : option string :=
  match s with
  | String a (String b rest) => if p1 a && p2 b then Some rest else None
  | _ => None
  end.

Definition alt1 (p : ascii -> bool) (s : string) : option string :=
  match s with
  | String a rest => if p a then Some rest else None
  | _ => None
  end.

Definition hour_alts : list (string -> option string) :=
  [ alt2 (Ascii.eqb "2") (in_range "0" "3");
    alt2 (in_range "0" "1") is_digit;
    alt1 is_digit ].

Definition minute_alts : list (string -> option string) :=
  [ alt2 (in_range "0" "5") is_digit;
    alt1 is_digit ].

(** First alternative, in order, after which the continuation matches. *)
Fixpoint first_match {A} (alts : list (string -> option string))
    (k : string -> option A) (s : string) : option A :=
  match alts with
  | [] => None
  | p :: alts' =>
      match (match p s with Some rest => k rest | None => None end) with
      | Some r => Some r
      | None => first_match alts' k s
      end
  end.

Definition colon (k : string -> option string) (s : string) : option string :=
  match s with
  | String ":" rest => k rest
  | _ => None
  end.

(** [format_regex.match(data_string)]: the unconverted remainder. *)
Definition regex_match (s : string) : option string :=
  first_match hour_alts (colon (first_match minute_alts Some)) s.

End Strptime.

Definition is_valid_time (time_str : string) : bool :=
  match Strptime.regex_match time_str with
  | Some EmptyString => true
  | Some _ => false          (* unconverted data remains *)
  | None => false            (* does not match the format *)
  end.

(** ** The three tables *)

(** A row of [chat_settings] ([chat_id INTEGER PRIMARY KEY]). *)
Record ChatSettings := mkChatSettings {
  cs_chat_id : Z;
  cs_chat_title : option string;
  cs_night_mode_enabled : Z;
  cs_start_time : string;
  cs_end_time : string;
  cs_welcome_message : string;
  cs_is_active : Z;
  cs_added_date : option string;
  cs_last_notification_date : option string;
  cs_is_night_mode_active : Z
}.

(** A row of [saved_messages] ([id INTEGER PRIMARY KEY AUTOINCREMENT]). *)
Record SavedMessage := mkSavedMessage {
  sm_id : Z;
  sm_chat_id : Z;
  sm_message_id : Z;
  sm_user_id : Z;
  sm_message_text : string;
  sm_message_type : string;
  sm_saved_date : string;
  sm_night_mode_session : string
}.

(** A row of [night_sessions] ([session_id TEXT PRIMARY KEY]). *)
Record NightSession := mkNightSession {
  ns_session_id : string;
  ns_chat_id : Z;
  ns_start_time : string;
  ns_end_time : string;
  ns_message_count : Z;
  ns_is_completed : Z
}.

Record DB := mkDB {
  chat_settings : list ChatSettings;
  saved_messages : list SavedMessage;
  saved_messages_seq : Z;      (* the AUTOINCREMENT counter *)
  night_sessions : list NightSession
}.

Definition empty_db : DB := mkDB [] [] 0 [].

(** Column defaults of [CREATE TABLE chat_settings]. *)
Definition default_start_time : string := "23:00".
Definition default_end_time : string := "05:00".
Definition default_welcome_message : string :=
  "🌙 Ночной режим активирован! Сообщения будут удаляться в конце периода.".

(** Python truth value of an INTEGER column. *)
Definition truthy (n : Z) : bool := negb (n =? 0).

(** *** Statements, as functions on the tables *)

Module Sql.

(** [SELECT ... FROM chat_settings WHERE night_mode_enabled = 1 AND is_active = 1] *)
Definition select_enabled_chats (d : DB) : list ChatSettings :=
  filter (fun r => (cs_night_mode_enabled r =? 1) && (cs_is_active r =? 1))
         (chat_settings d).

(** [SELECT * FROM chat_settings WHERE chat_id = ?], [fetchone()] *)
Definition select_chat (chat_id : Z) (d : DB) : option ChatSettings :=
  find (fun r => cs_chat_id r =? chat_id) (chat_settings d).

(** [UPDATE chat_settings SET ... WHERE chat_id = ?] *)
Definition update_chat (chat_id : Z) (f : ChatSettings -> ChatSettings) (d : DB) : DB :=
  mkDB (map (fun r => if cs_chat_id r =? chat_id then f r else r) (chat_settings d))
       (saved_messages d) (saved_messages_seq d) (night_sessions d).

Definition set_night_mode_enabled (v : Z) (r : ChatSettings) : ChatSettings :=
  mkChatSettings (cs_chat_id r) (cs_chat_title r) v (cs_start_time r) (cs_end_time r)
    (cs_welcome_message r) (cs_is_active r) (cs_added_date r)
    (cs_last_notification_date r) (cs_is_night_mode_active r).

Definition set_start_time (v : string) (r : ChatSettings) : ChatSettings :=
  mkChatSettings (cs_chat_id r) (cs_chat_title r) (cs_night_mode_enabled r) v (cs_end_time r)
    (cs_welcome_message r) (cs_is_active r) (cs_added_date r)
    (cs_last_notification_date r) (cs_is_night_mode_active r).

Definition set_end_time (v : string) (r : ChatSettings) : ChatSettings :=
  mkChatSettings (cs_chat_id r) (cs_chat_title r) (cs_night_mode_enabled r) (cs_start_time r) v
    (cs_welcome_message r) (cs_is_active r) (cs_added_date r)
    (cs_last_notification_date r) (cs_is_night_mode_active r).

Definition set_welcome_message (v : string) (r : ChatSettings) : ChatSettings :=
  mkChatSettings (cs_chat_id r) (cs_chat_title r) (cs_night_mode_enabled r) (cs_start_time r)
    (cs_end_time r) v (cs_is_active r) (cs_added_date r)
    (cs_last_notification_date r) (cs_is_night_mode_active r).

(** [SET is_night_mode_active = 1, last_notification_date = ?] *)
Definition set_activated (date : string) (r : ChatSettings) : ChatSettings :=
  mkChatSettings (cs_chat_id r) (cs_chat_title r) (cs_night_mode_enabled r) (cs_start_time r)
    (cs_end_time r) (cs_welcome_message r) (cs_is_active r) (cs_added_date r)
    (Some date) 1.

(** [SET is_night_mode_active = 0] *)
Definition set_deactivated (r : ChatSettings) : ChatSettings :=
  mkChatSettings (cs_chat_id r) (cs_chat_title r) (cs_night_mode_enabled r) (cs_start_time r)
    (cs_end_time r) (cs_welcome_message r) (cs_is_active r) (cs_added_date r)
    (cs_last_notification_date r) 0.

(** [INSERT OR REPLACE INTO chat_settings (chat_id, is_active, added_date)
     VALUES (?, 1, ?)]: a row with the same key is deleted, the new row takes
    the defaults for the columns that are not listed. *)
Definition insert_or_replace_chat (chat_id : Z) (added : string) (d : DB) : DB :=
  mkDB (filter (fun r => negb (cs_chat_id r =? chat_id)) (chat_settings d)
          ++ [mkChatSettings chat_id None 0 default_start_time default_end_time
                default_welcome_message 1 (Some added) None 0])
       (saved_messages d) (saved_messages_seq d) (night_sessions d).

(** [INSERT OR REPLACE INTO night_sessions (session_id, chat_id, start_time, end_time)
     VALUES (?, ?, ?, ?)] *)
Definition insert_or_replace_session (session_id : string) (chat_id : Z)
    (start_time end_time : string) (d : DB) : DB :=
  mkDB (chat_settings d) (saved_messages d) (saved_messages_seq d)
       (filter (fun r => negb (ns_session_id r =? session_id)%string) (night_sessions d)
          ++ [mkNightSession session_id chat_id start_time end_time 0 0]).

(** [ORDER BY start_time DESC LIMIT 1] over the rows already selected:
    the row with the greatest [start_time] (TEXT compares bytewise); among
    equal ones the first in scan order. *)
Fixpoint latest (best : option NightSession) (rows : list NightSession) : option NightSession :=
  match rows with
  | [] => best
  | r :: rows' =>
      match best with
      | None => latest (Some r) rows'
      | Some b =>
          if String.ltb (ns_start_time b) (ns_start_time r)
          then latest (Some r) rows' else latest best rows'
      end
  end.

Definition is_open_for (chat_id : Z) (r : NightSession) : bool :=
  (ns_chat_id r =? chat_id) && (ns_is_completed r =? 0).

(** [SELECT session_id FROM night_sessions WHERE chat_id = ? AND is_completed = 0
     ORDER BY start_time DESC LIMIT 1], [fetchone()] *)
Definition select_open_session (chat_id : Z) (d : DB) : option string :=
  option_map ns_session_id
    (latest None (filter (is_open_for chat_id) (night_sessions d))).

(** [UPDATE night_sessions SET is_completed = 1, message_count = ? WHERE session_id = ?] *)
Definition complete_session (message_count : Z) (session_id : string) (d : DB) : DB :=
  mkDB (chat_settings d) (saved_messages d) (saved_messages_seq d)
       (map (fun r => if (ns_session_id r =? session_id)%string
                      then mkNightSession (ns_session_id r) (ns_chat_id r) (ns_start_time r)
                             (ns_end_time r) message_count 1
                      else r)
            (night_sessions d)).

Definition in_session (chat_id : Z) (session_id : string) (m : SavedMessage) : bool :=
  (sm_chat_id m =? chat_id) && (sm_night_mode_session m =? session_id)%string.

(** [SELECT message_id FROM saved_messages WHERE chat_id = ? AND night_mode_session = ?] *)
Definition select_session_messages (chat_id : Z) (session_id : string) (d : DB) : list Z :=
  map sm_message_id (filter (in_session chat_id session_id) (saved_messages d)).

(** [SELECT COUNT( * ) FROM saved_messages WHERE chat_id = ? AND night_mode_session = ?] *)
Definition count_session_messages (chat_id : Z) (session_id : string) (d : DB) : Z :=
  Z.of_nat (List.length (filter (in_session chat_id session_id) (saved_messages d))).

(** [INSERT INTO saved_messages (chat_id, message_id, user_id, message_text,
     message_type, saved_date, night_mode_session) VALUES (...)] *)
Definition insert_saved_message (chat_id message_id user_id : Z)
    (message_text message_type saved_date session_id : string) (d : DB) : DB :=
  let id := saved_messages_seq d + 1 in
  mkDB (chat_settings d)
       (saved_messages d ++
          [mkSavedMessage id chat_id message_id user_id message_text message_type
             saved_date session_id])
       id (night_sessions d).

End Sql.

(** ** The environment and the monad of the bot's methods *)

(** What a message sent through [send_message] says.  The wording of the
    bot's own texts is not modelled, only the values formatted into them. *)
Inductive Payload :=
| Text (text : string)                                (* a text read from the store *)
| NightReport (deleted_count : Z) (start_time end_time : string)
| ChatIdInfo (chat_id : Z)
| GroupHelp (chat_id : Z)
| GroupStatus (saved_count : option Z)
| TestNight (saved_count : option Z)
| TimeSet (is_start : bool) (time : string)
| BadTimeFormat
| ChatSettingsMenu (chat_id : Z)
| ChatAdded (chat_id : Z).

(** A request to the Telegram API. *)
Inductive Call :=
| SendMessage (chat_id : Z) (p : Payload)
| DeleteMessage (chat_id : Z) (message_id : Z)
| GetChatAdministrators (chat_id : Z) (user_id : Z).

Record World := mkWorld {
  db : DB;                       (* the connection's view of the database *)
  store_faults : list bool;      (* for each coming statement: does it raise? *)
  remote_answers : list bool;    (* for each coming request: is the answer ok? *)
  outbox : list (Call * bool)    (* the requests made so far, with their answers *)
}.

Definition with_db (d : DB) (w : World) : World :=
  mkWorld d (store_faults w) (remote_answers w) (outbox w).

(** [sqlite3.Error], the only exception that reaches the methods below:
    [send_message], [delete_message] and [is_user_admin] catch their own. *)
Inductive exn := StoreError.

Inductive outcome (A : Type) :=
| Returned (a : A)
| Raised (e : exn).
Arguments Returned {A} a.
Arguments Raised {A} e.

Definition M (A : Type) : Type := World -> outcome A * World.

Definition ret {A} (a : A) : M A := fun w => (Returned a, w).

Definition bind {A B} (m : M A) (k : A -> M B) : M B :=
  fun w => match m w with
           | (Returned a, w') => k a w'
           | (Raised e, w') => (Raised e, w')
           end.

(** [try: m  except Exception as e: h e] *)
Definition try_except {A} (m : M A) (h : exn -> M A) : M A :=
  fun w => match m w with
           | (Returned a, w') => (Returned a, w')
           | (Raised e, w') => h e w'
           end.

Declare Scope bot_scope.
Delimit Scope bot_scope with bot.
Notation "x <- m ;; k" := (bind m (fun x => k))
  (at level 61, m at next level, right associativity) : bot_scope.
Notation "m ;;; k" := (bind m (fun _ => k))
  (at level 61, right associativity) : bot_scope.
Local Open Scope bot_scope.

(** The scripts are read from the head; a script that has run out means
    "no fault" for the store and "ok" for the remote side. *)
Definition next_fault (w : World) : bool := hd false (store_faults w).
Definition next_answer (w : World) : bool := hd true (remote_answers w).

(** [self.cursor.execute(...)] followed by the fetch, for a SELECT. *)
Definition query {A} (q : DB -> A) : M A :=
  fun w =>
    let w' := mkWorld (db w) (tl (store_faults w)) (remote_answers w) (outbox w) in
    if next_fault w then (Raised StoreError, w') else (Returned (q (db w)), w').

(** [self.cursor.execute(...)] for a statement that writes. *)
Definition execute (stmt : DB -> DB) : M unit :=
  fun w =>
    if next_fault w
    then (Raised StoreError,
          mkWorld (db w) (tl (store_faults w)) (remote_answers w) (outbox w))
    else (Returned tt,
          mkWorld (stmt (db w)) (tl (store_faults w)) (remote_answers w) (outbox w)).

(** [self.conn.commit()]; what the connection sees does not change. *)
Definition commit : M unit := execute (fun d => d).

(** A request and its answer; a failed request (an exception inside
    [requests.post], or [ok] false in the reply) answers [false]. *)
Definition request (c : Call) : M bool :=
  fun w =>
    (Returned (next_answer w),
     mkWorld (db w) (store_faults w) (tl (remote_answers w))
             (outbox w ++ [(c, next_answer w)])).

(** Python's [for x in xs: body x]. *)
Fixpoint for_each {A} (xs : list A) (body : A -> M unit) : M unit :=
  match xs with
  | [] => ret tt
  | x :: xs' => body x ;;; for_each xs' body
  end.

(** ** The clock: the readings of [datetime.now()] taken by one call *)

Record Clock := mkClock {
  now_hm : string;       (* strftime("%H:%M") *)
  now_date : string;     (* strftime("%Y-%m-%d") *)
  now_stamp : string;    (* strftime("%Y%m%d_%H%M") *)
  now_iso : string       (* isoformat() *)
}.

(** ** The methods of [NightModeBot] *)

Definition send_message (chat_id : Z) (p : Payload) : M bool :=
  request (SendMessage chat_id p).

Definition delete_message (chat_id : Z) (message_id : Z) : M bool :=
  request (DeleteMessage chat_id message_id).

Definition is_user_admin (chat_id user_id : Z) : M bool :=
  request (GetChatAdministrators chat_id user_id).

Definition get_chat_settings (chat_id : Z) : M (option ChatSettings) :=
  query (Sql.select_chat chat_id).

Definition get_current_session (chat_id : Z) : M (option string) :=
  query (Sql.select_open_session chat_id).

(** The deletion loop of [end_night_mode]. *)
Fixpoint delete_all (chat_id : Z) (messages : list Z) (deleted_count : Z) : M Z :=
  match messages with
  | [] => ret deleted_count
  | message_id :: rest =>
      ok <- delete_message chat_id message_id ;;
      delete_all chat_id rest (if ok then deleted_count + 1 else deleted_count)
  end.

Definition end_night_mode (chat_id : Z) : M unit :=
  try_except
    (session <- query (Sql.select_open_session chat_id) ;;
     match session with
     | Some session_id =>
         messages <- query (Sql.select_session_messages chat_id session_id) ;;
         deleted_count <- delete_all chat_id messages 0 ;;
         settings <- get_chat_settings chat_id ;;
         match settings with
         | Some st =>
             _ <- send_message chat_id
                    (NightReport deleted_count (cs_start_time st) (cs_end_time st)) ;;
             ret tt
         | None => ret tt
         end ;;;
         execute (Sql.complete_session deleted_count session_id) ;;;
         execute (Sql.update_chat chat_id Sql.set_deactivated) ;;;
         commit
     | None => ret tt
     end)
    (fun _ => ret tt).

Definition save_message (now : Clock) (chat_id message_id user_id : Z)
    (message_text message_type session_id : string) : M unit :=
  try_except
    (execute (Sql.insert_saved_message chat_id message_id user_id
                (PyStr.slice_to 500 message_text) message_type (now_iso now) session_id) ;;;
     commit)
    (fun _ => ret tt).

(** The opening of a session, first branch of the loop body. *)
Definition start_night_mode (now : Clock) (r : ChatSettings) : M unit :=
  let chat_id := cs_chat_id r in
  let session_id := make_session_id chat_id (now_stamp now) in
  execute (Sql.insert_or_replace_session session_id chat_id (now_iso now) (cs_end_time r)) ;;;
  execute (Sql.update_chat chat_id (Sql.set_activated (now_date now))) ;;;
  _ <- send_message chat_id (Text (cs_welcome_message r)) ;;
  commit.

(** The body of the [for] loop of [background_time_check], for one row of
    the SELECT. *)
Definition check_chat (now : Clock) (r : ChatSettings) : M unit :=
  if (now_hm now =? cs_start_time r)%string && negb (truthy (cs_is_night_mode_active r))
  then start_night_mode now r
  else if (now_hm now =? cs_end_time r)%string && truthy (cs_is_night_mode_active r)
  then end_night_mode (cs_chat_id r)
  else ret tt.

(** One turn of the [while True] loop of [background_time_check], without
    the sleep: a tick. *)
Definition background_time_check (now : Clock) : M unit :=
  try_except
    (chats <- query Sql.select_enabled_chats ;;
     for_each chats (check_chat now))
    (fun _ => ret tt).

(** *** The settings written from the private chat *)

Definition enable_night_mode (chat_id : Z) : M unit :=
  try_except
    (execute (Sql.update_chat chat_id (Sql.set_night_mode_enabled 1)) ;;; commit)
    (fun _ => ret tt).

Definition disable_night_mode (chat_id : Z) : M unit :=
  try_except
    (execute (Sql.update_chat chat_id (Sql.set_night_mode_enabled 0)) ;;; commit)
    (fun _ => ret tt).

Definition update_start_time (chat_id : Z) (start_time : string) : M unit :=
  try_except
    (execute (Sql.update_chat chat_id (Sql.set_start_time start_time)) ;;; commit)
    (fun _ => ret tt).

Definition update_end_time (chat_id : Z) (end_time : string) : M unit :=
  try_except
    (execute (Sql.update_chat chat_id (Sql.set_end_time end_time)) ;;; commit)
    (fun _ => ret tt).

Definition update_welcome_message (chat_id : Z) (message : string) : M unit :=
  try_except
    (execute (Sql.update_chat chat_id (Sql.set_welcome_message message)) ;;; commit)
    (fun _ => ret tt).

Definition show_chat_settings (chat_id target_chat_id : Z) : M unit :=
  _ <- get_chat_settings target_chat_id ;;
  _ <- send_message chat_id (ChatSettingsMenu target_chat_id) ;;
  ret tt.

(** [handle_private_message] for a user whose state starts with
    ["waiting_time_"]: [state] is [self.user_states[user_id]] and
    [target_chat_id] is [self.user_current_chat.get(user_id)]. *)
Definition handle_time_input (state : string) (target_chat_id : option Z)
    (chat_id : Z) (message_text : string) : M bool :=
  match target_chat_id with
  | Some target =>
      if truthy target then
        if is_valid_time message_text then
          (if PyStr.contains "start" state
           then update_start_time target message_text ;;;
                _ <- send_message chat_id (TimeSet true message_text) ;; ret tt
           else update_end_time target message_text ;;;
                _ <- send_message chat_id (TimeSet false message_text) ;; ret tt) ;;;
          show_chat_settings chat_id target ;;;
          ret true
        else
          _ <- send_message chat_id BadTimeFormat ;;
          ret true
      else ret true
  | None => ret true
  end.

(** [handle_private_message] in the state ["waiting_chat_id"], once
    [int(message_text)] has given [target_chat_id]. *)
Definition add_chat (now : Clock) (target_chat_id chat_id : Z) : M bool :=
  execute (Sql.insert_or_replace_chat target_chat_id (now_iso now)) ;;;
  commit ;;;
  _ <- send_message chat_id (ChatAdded target_chat_id) ;;
  show_chat_settings chat_id target_chat_id ;;;
  ret true.

(** *** Messages in a group *)

Definition show_group_status (chat_id : Z) : M unit :=
  settings <- get_chat_settings chat_id ;;
  match settings with
  | Some st =>
      if truthy (cs_night_mode_enabled st) then
        if truthy (cs_is_night_mode_active st) then
          current_session <- get_current_session chat_id ;;
          saved_count <- query (fun d => match current_session with
                                         | Some s => Sql.count_session_messages chat_id s d
                                         | None => 0
                                         end) ;;
          _ <- send_message chat_id (GroupStatus (Some saved_count)) ;; ret tt
        else _ <- send_message chat_id (GroupStatus None) ;; ret tt
      else _ <- send_message chat_id (GroupStatus None) ;; ret tt
  | None => _ <- send_message chat_id (GroupStatus None) ;; ret tt
  end.

Definition test_night (chat_id : Z) : M unit :=
  settings <- get_chat_settings chat_id ;;
  match settings with
  | Some st =>
      if truthy (cs_night_mode_enabled st) then
        current_session <- get_current_session chat_id ;;
        match current_session with
        | Some s =>
            if PyStr.nonempty s then
              saved_count <- query (Sql.count_session_messages chat_id s) ;;
              _ <- send_message chat_id (TestNight (Some saved_count)) ;; ret tt
            else _ <- send_message chat_id (TestNight None) ;; ret tt
        | None => _ <- send_message chat_id (TestNight None) ;; ret tt
        end
      else _ <- send_message chat_id (TestNight None) ;; ret tt
  | None => _ <- send_message chat_id (TestNight None) ;; ret tt
  end.

(** The capture at the end of [handle_group_message]. *)
Definition capture (now : Clock) (message_text : string) (user_id chat_id message_id : Z)
    (message_type : string) : M bool :=
  settings <- get_chat_settings chat_id ;;
  match settings with
  | Some st =>
      if truthy (cs_is_night_mode_active st) then
        current_session <- get_current_session chat_id ;;
        match current_session with
        | Some s =>
            if PyStr.nonempty s
            then save_message now chat_id message_id user_id message_text message_type s
            else ret tt
        | None => ret tt
        end
      else ret tt
  | None => ret tt
  end ;;;
  ret true.

Definition handle_group_message (now : Clock) (message_text : string)
    (user_id chat_id message_id : Z) (message_type : string) : M bool :=
  if (message_type =? "text")%string then
    if (message_text =? "/id")%string then
      _ <- send_message chat_id (ChatIdInfo chat_id) ;; ret true
    else if (message_text =? "/start")%string then
      _ <- send_message chat_id (GroupHelp chat_id) ;; ret true
    else if (message_text =? "/status")%string then
      show_group_status chat_id ;;; ret true
    else if (message_text =? "/test_night")%string then
      test_night chat_id ;;; ret true
    else if (message_text =? "/force_cleanup")%string then
      admin <- is_user_admin chat_id user_id ;;
      if admin then end_night_mode chat_id ;;; ret true
      else capture now message_text user_id chat_id message_id message_type
    else capture now message_text user_id chat_id message_id message_type
  else capture now message_text user_id chat_id message_id message_type.

(** Running a method: the world it leaves. *)
Definition run {A} (m : M A) (w : World) : World := snd (m w).

Definition world_of (d : DB) (faults answers : list bool) : World :=
  mkWorld d faults answers [].

(** ** Operations and reachable worlds *)

(** What can happen to the bot: a tick of the background thread, or an
    update handled by the polling loop. *)
Inductive Op :=
| Tick (now : Clock)
| GroupMessage (now : Clock) (message_text : string) (user_id chat_id message_id : Z)
    (message_type : string)
| ForcedCleanup (chat_id : Z)
| EnableNightMode (chat_id : Z)
| DisableNightMode (chat_id : Z)
| TimeInput (state : string) (target_chat_id : option Z) (chat_id : Z) (message_text : string)
| WelcomeInput (target_chat_id : Z) (message : string)
| AddChat (now : Clock) (target_chat_id chat_id : Z).

Definition exec (op : Op) : M unit :=
  match op with
  | Tick now => background_time_check now
  | GroupMessage now text user chat mid type =>
      _ <- handle_group_message now text user chat mid type ;; ret tt
  | ForcedCleanup chat => end_night_mode chat
  | EnableNightMode chat => enable_night_mode chat
  | DisableNightMode chat => disable_night_mode chat
  | TimeInput state target chat text =>
      _ <- handle_time_input state target chat text ;; ret tt
  | WelcomeInput target message => update_welcome_message target message
  | AddChat now target chat => _ <- add_chat now target chat ;; ret tt
  end.

(** A chat is tracked when it has a row in [chat_settings]. *)
Definition tracked (chat_id : Z) (d : DB) : bool :=
  match Sql.select_chat chat_id d with Some _ => true | None => false end.

(** The registration of a chat is its first one: [AddChat] on a tracked
    chat replaces its row by the column defaults and is not a step. *)
Definition admissible (op : Op) (w : World) : Prop :=
  match op with
  | AddChat _ target _ => tracked target (db w) = false
  | _ => True
  end.

(** The worlds the bot reaches from an empty database while no statement
    raises; the remote side answers as it likes. *)
Inductive Reachable : World -> Prop :=
| reach_start : Reachable (world_of empty_db [] [])
| reach_step w op :
    Reachable w -> admissible op w -> Reachable (run (exec op) w)
| reach_remote w answers :
    Reachable w -> Reachable (mkWorld (db w) (store_faults w) answers (outbox w)).

Fixpoint run_all (ops : list Op) (w : World) : World :=
  match ops with
  | [] => w
  | op :: ops' => run_all ops' (run (exec op) w)
  end.

(** ** What the claims speak about *)

(** The active flag of a chat, as the background check reads it. *)
Definition chat_active (chat_id : Z) (d : DB) : bool :=
  match Sql.select_chat chat_id d with
  | Some r => truthy (cs_is_night_mode_active r)
  | None => false
  end.

(** The number of session rows of a chat with [is_completed = 0]. *)
Definition open_count (chat_id : Z) (d : DB) : nat :=
  List.length (filter (Sql.is_open_for chat_id) (night_sessions d)).

(** The rows of a chat in the session ledger. *)
Definition sessions_of (chat_id : Z) (d : DB) : list NightSession :=
  filter (fun r => ns_chat_id r =? chat_id) (night_sessions d).


(** The requests made between two worlds. *)
Definition calls_since (w w' : World) : list (Call * bool) :=
  skipn (List.length (outbox w)) (outbox w').

(** The report of a purge, counted on the requests it made. *)
Record Report := mkReport { attempted : nat; deleted : nat; failed : nat }.

Definition is_delete (ok : option bool) (c : Call * bool) : bool :=
  match c with
  | (DeleteMessage _ _, b) =>
      match ok with Some v => Bool.eqb b v | None => true end
  | _ => false
  end.

Definition purge_report (calls : list (Call * bool)) : Report :=
  mkReport (List.length (filter (is_delete None) calls))
           (List.length (filter (is_delete (Some true)) calls))
           (List.length (filter (is_delete (Some false)) calls)).

(** ** Auxiliary notions for the proofs *)

(** The answers given to the next [n] requests, and the script left. *)
Fixpoint take_answers (n : nat) (answers : list bool) : list bool :=
  match n with
  | O => []
  | S n' => hd true answers :: take_answers n' (tl answers)
  end.

Fixpoint drop_answers (n : nat) (answers : list bool) : list bool :=
  match n with
  | O => answers
  | S n' => drop_answers n' (tl answers)
  end.

(** The value of [deleted_count] after the given answers. *)
Fixpoint count_ok (acc : Z) (oks : list bool) : Z :=
  match oks with
  | [] => acc
  | ok :: oks' => count_ok (if ok then acc + 1 else acc) oks'
  end.

(** No statement of this world's future raises. *)
Definition quiet (w : World) : Prop := store_faults w = [].

(** The state of a purge that found session [sid] open for [chat_id]. *)
Definition purged (chat_id : Z) (sid : string) (w : World) : World :=
  let d := db w in
  let msgs := Sql.select_session_messages chat_id sid d in
  let n := List.length msgs in
  let oks := take_answers n (remote_answers w) in
  let deleted_count := count_ok 0 oks in
  let rest := drop_answers n (remote_answers w) in
  let deletions := combine (map (DeleteMessage chat_id) msgs) oks in
  let d' := Sql.update_chat chat_id Sql.set_deactivated
              (Sql.complete_session deleted_count sid d) in
  match Sql.select_chat chat_id d with
  | Some st =>
      mkWorld d' (store_faults w) (tl rest)
        (outbox w ++ deletions ++
           [(SendMessage chat_id
               (NightReport deleted_count (cs_start_time st) (cs_end_time st)),
             hd true rest)])
  | None => mkWorld d' (store_faults w) rest (outbox w ++ deletions)
  end.

(** The database after the opening of a session for row [r]. *)
Definition opened (now : Clock) (r : ChatSettings) (d : DB) : DB :=
  Sql.update_chat (cs_chat_id r) (Sql.set_activated (now_date now))
    (Sql.insert_or_replace_session (make_session_id (cs_chat_id r) (now_stamp now))
       (cs_chat_id r) (now_iso now) (cs_end_time r) d).

(** The data-model invariant: the two primary keys, session identities made
    from their chat, and per chat as many open sessions as the flag says. *)
Record consistent (d : DB) : Prop := mkConsistent {
  chat_key : NoDup (map cs_chat_id (chat_settings d));
  session_key : NoDup (map ns_session_id (night_sessions d));
  session_ids : forall r, In r (night_sessions d) ->
                  exists stamp, ns_session_id r = make_session_id (ns_chat_id r) stamp;
  flag_counts : forall chat_id,
                  open_count chat_id d = if chat_active chat_id d then 1%nat else 0%nat
}.

(** The retention store only grows, by rows whose text is bounded. *)
Definition bounded_text (m : SavedMessage) : Prop :=
  (String.length (sm_message_text m) <= 500)%nat.

Definition grows (d d' : DB) : Prop :=
  exists new, saved_messages d' = (saved_messages d ++ new)%list /\ Forall bounded_text new.


(** A change of a [chat_settings] row that leaves its key alone. *)
Definition keeps_chat_id (f : ChatSettings -> ChatSettings) : Prop :=
  forall r, cs_chat_id (f r) = cs_chat_id r.

(** A world in which no statement will raise and the database is consistent. *)
Definition sound (w : World) : Prop := quiet w /\ consistent (db w).

(** The world after the loop body ran on row [r] without a store fault. *)
Definition checked (now : Clock) (w : World) (r : ChatSettings) : World :=
  if (now_hm now =? cs_start_time r)%string && negb (truthy (cs_is_night_mode_active r))
  then mkWorld (opened now r (db w)) (store_faults w) (tl (remote_answers w))
         (outbox w ++ [(SendMessage (cs_chat_id r) (Text (cs_welcome_message r)),
                        next_answer w)])
  else if (now_hm now =? cs_end_time r)%string && truthy (cs_is_night_mode_active r)
  then match Sql.select_open_session (cs_chat_id r) (db w) with
       | Some sid => purged (cs_chat_id r) sid w
       | None => w
       end
  else w.

(** The condition of the SELECT of the background check. *)
Definition selected (r : ChatSettings) : bool :=
  (cs_night_mode_enabled r =? 1) && (cs_is_active r =? 1).

(** Two databases agree on a chat: its settings row and its sessions. *)
Definition same_chat (chat_id : Z) (d d' : DB) : Prop :=
  Sql.select_chat chat_id d' = Sql.select_chat chat_id d /\
  sessions_of chat_id d' = sessions_of chat_id d.

(** A method relates every world to the world it leaves by [R]. *)
Definition steps (R : World -> World -> Prop) {A} (m : M A) : Prop :=
  forall w, R w (snd (m w)).

(** Soundness carries over. *)
Definition stays_sound (w w' : World) : Prop := sound w -> sound w'.

(** The retention store has only grown. *)
Definition store_grows (w w' : World) : Prop := grows (db w) (db w').

(** ** Sample runs *)

Module Sample.

Definition group : Z := -1001.
Definition admin_chat : Z := 7.

Definition morning : Clock :=
  mkClock "10:00" "2025-01-01" "20250101_1000" "2025-01-01T10:00:00.000000".
Definition at_start : Clock :=
  mkClock "23:00" "2025-01-01" "20250101_2300" "2025-01-01T23:00:00.000000".
Definition at_night : Clock :=
  mkClock "23:30" "2025-01-01" "20250101_2330" "2025-01-01T23:30:00.000000".
Definition at_end : Clock :=
  mkClock "05:00" "2025-01-02" "20250102_0500" "2025-01-02T05:00:00.000000".

Definition message (n : Z) : Op :=
  GroupMessage at_night "good night" 42 group n "text".

(** The group is registered and night mode is enabled. *)
Definition configured : World :=
  run_all [AddChat morning group admin_chat; EnableNightMode group]
          (world_of empty_db [] []).

(** The window has opened. *)
Definition in_session : World := run (exec (Tick at_start)) configured.

(** Five messages were captured; the third deletion will fail. *)
Definition five_captured : World :=
  let w := run_all [message 1; message 2; message 3; message 4; message 5] in_session in
  mkWorld (db w) (store_faults w) [true; true; false; true; true] (outbox w).

(** The row of the group in [configured]. *)
Definition group_row : ChatSettings :=
  mkChatSettings group None 1 "23:00" "05:00" default_welcome_message 1
    (Some "2025-01-01T10:00:00.000000") None 0.

(** A simulated clock: the reading [n] minutes after 2025-01-01 00:00. *)
Definition two_digits (n : nat) : string :=
  if (n <? 10)%nat then "0" ++ PyStr.str (Z.of_nat n) else PyStr.str (Z.of_nat n).

Definition clock_at (n : nat) : Clock :=
  let hh := two_digits ((n / 60) mod 24) in
  let mm := two_digits (n mod 60) in
  let day := two_digits (1 + n / 1440) in
  mkClock (hh ++ ":" ++ mm)
          ("2025-01-" ++ day)
          ("202501" ++ day ++ "_" ++ hh ++ mm)
          ("2025-01-" ++ day ++ "T" ++ hh ++ ":" ++ mm ++ ":00.000000").

Definition minutes (first count : nat) : list Clock := map clock_at (seq first count).

(** 22:59; 23:00; 23:01 to 04:59; 05:00; 05:01. *)
Definition t_2259 : list Clock := minutes 1379 1.
Definition t_2300 : Clock := clock_at 1380.
Definition t_night : list Clock := minutes 1381 359.
Definition t_0500 : Clock := clock_at 1740.
Definition t_0501 : list Clock := minutes 1741 1.

(** A group whose start time was set to its end time, in session. *)
Definition degenerate : World :=
  run_all [AddChat morning group admin_chat; EnableNightMode group;
           TimeInput "waiting_time_start" (Some group) admin_chat "05:00";
           Tick (clock_at 1740)]
          (world_of empty_db [] []).

(** Two groups, registered and enabled. *)
Definition group2 : Z := -1002.

Definition two_configured : World :=
  run_all [AddChat morning group2 admin_chat; EnableNightMode group2;
           AddChat morning group admin_chat; EnableNightMode group]
          (world_of empty_db [] []).

End Sample.

(** The background check acts on row [r] at the time [now]. *)
Definition triggers (now : Clock) (r : ChatSettings) : bool :=
  selected r &&
  (((now_hm now =? cs_start_time r)%string && negb (truthy (cs_is_night_mode_active r)))
   || ((now_hm now =? cs_end_time r)%string && truthy (cs_is_night_mode_active r))).

(** The retention store is as it was. *)
Definition same_store (w w' : World) : Prop :=
  saved_messages (db w') = saved_messages (db w).

(** * Properties *)

Local Open Scope list_scope.

(** ** The time format *)

Example is_valid_time_2300 : is_valid_time "23:00" = true.
Proof. reflexivity. Qed.
Example is_valid_time_short : is_valid_time "5:7" = true.
Proof. reflexivity. Qed.
Example is_valid_time_2400 : is_valid_time "24:00" = false.
Proof. reflexivity. Qed.
Example is_valid_time_minute60 : is_valid_time "12:60" = false.
Proof. reflexivity. Qed.
Example is_valid_time_text : is_valid_time "night" = false.
Proof. reflexivity. Qed.

(** ** Session identities determine their chat *)

Section SessionIds.

Lemma uint_digits_no_underscore (d : Decimal.uint) :
  PyStr.mem "_" (NilEmpty.string_of_uint d) = false.
Proof. induction d; simpl; auto. Qed.

Lemma str_no_underscore (n : Z) : PyStr.mem "_" (PyStr.str n) = false.
Proof.
  unfold PyStr.str, NilZero.string_of_int, NilZero.string_of_uint.
  destruct (Z.to_int n) as [d|d]; destruct d; simpl;
    auto using uint_digits_no_underscore.
Qed.

Lemma to_int_not_nil (n : Z) :
  Z.to_int n <> Decimal.Pos Decimal.Nil /\ Z.to_int n <> Decimal.Neg Decimal.Nil.
Proof.
  destruct n as [|p|p]; simpl; split; try discriminate;
    intros H; injection H as H; exact (Unsigned.to_uint_nonnil p H).
Qed.

Lemma str_inj (a b : Z) : PyStr.str a = PyStr.str b -> a = b.
Proof.
  unfold PyStr.str. intros H.
  apply (f_equal NilZero.int_of_string) in H.
  destruct (to_int_not_nil a) as [Ha1 Ha2], (to_int_not_nil b) as [Hb1 Hb2].
  rewrite !NilZero.isi in H by assumption.
  injection H as H.
  rewrite <- (DecimalZ.of_to a), <- (DecimalZ.of_to b). now f_equal.
Qed.

Lemma split_at_underscore (a b x y : string) :
  PyStr.mem "_" a = false -> PyStr.mem "_" b = false ->
  (a ++ "_" ++ x = b ++ "_" ++ y)%string -> a = b /\ x = y.
Proof.
  revert b. induction a as [|c a IH]; intros [|c' b] Ha Hb H; simpl in *.
  - injection H as H. auto.
  - injection H as Hc _. subst c'. simpl in Hb. discriminate.
  - injection H as Hc _. subst c. simpl in Ha. discriminate.
  - injection H as Hc H. subst c'.
    apply orb_false_iff in Ha as [_ Ha]. apply orb_false_iff in Hb as [_ Hb].
    destruct (IH b Ha Hb H) as [-> ->]. auto.
Qed.

Lemma make_session_id_inj (c1 c2 : Z) (s1 s2 : string) :
  make_session_id c1 s1 = make_session_id c2 s2 -> c1 = c2 /\ s1 = s2.
Proof.
  unfold make_session_id. intros H.
  apply split_at_underscore in H; auto using str_no_underscore.
  destruct H as [H ->]. split; auto using str_inj.
Qed.

End SessionIds.

(** ** Running the methods while the store is quiet *)

Section Running.

Lemma world_eta (w : World) :
  mkWorld (db w) (store_faults w) (remote_answers w) (outbox w) = w.
Proof. now destruct w. Qed.

Lemma query_quiet {A} (q : DB -> A) (w : World) :
  quiet w -> query q w = (Returned (q (db w)), w).
Proof.
  unfold quiet, query, next_fault. intros H. rewrite H. simpl.
  rewrite <- H. now rewrite world_eta.
Qed.

Lemma execute_quiet (stmt : DB -> DB) (w : World) :
  quiet w -> execute stmt w = (Returned tt, with_db (stmt (db w)) w).
Proof.
  unfold quiet, execute, next_fault, with_db. intros H. now rewrite H.
Qed.

Lemma commit_quiet (w : World) : quiet w -> commit w = (Returned tt, w).
Proof.
  intros H. unfold commit. rewrite execute_quiet by assumption.
  unfold with_db. now rewrite world_eta.
Qed.

Lemma delete_all_runs (chat_id : Z) (messages : list Z) :
  forall acc w,
    delete_all chat_id messages acc w =
    (Returned (count_ok acc (take_answers (List.length messages) (remote_answers w))),
     mkWorld (db w) (store_faults w)
       (drop_answers (List.length messages) (remote_answers w))
       (outbox w ++ combine (map (DeleteMessage chat_id) messages)
                      (take_answers (List.length messages) (remote_answers w)))).
Proof.
  induction messages as [|m ms IH]; intros acc w; simpl.
  - unfold ret. now rewrite app_nil_r, world_eta.
  - unfold bind, delete_message, request, next_answer. rewrite IH. simpl.
    now rewrite <- app_assoc.
Qed.

Lemma end_night_mode_quiet (chat_id : Z) (w : World) :
  quiet w ->
  end_night_mode chat_id w =
  (Returned tt,
   match Sql.select_open_session chat_id (db w) with
   | Some sid => purged chat_id sid w
   | None => w
   end).
Proof.
  intros Hq. unfold end_night_mode, try_except, bind.
  rewrite query_quiet by assumption.
  destruct (Sql.select_open_session chat_id (db w)) as [sid|]; [|reflexivity].
  rewrite query_quiet by assumption.
  rewrite delete_all_runs.
  unfold get_chat_settings, purged.
  destruct w as [d fs ans ob]. unfold quiet in Hq. simpl in Hq. subst fs.
  unfold query, execute, commit, next_fault, send_message, request, next_answer, ret. simpl.
  destruct (Sql.select_chat chat_id d) as [st|]; simpl; [|reflexivity].
  now rewrite <- app_assoc.
Qed.

Lemma start_night_mode_quiet (now : Clock) (r : ChatSettings) (w : World) :
  quiet w ->
  start_night_mode now r w =
  (Returned tt,
   mkWorld (opened now r (db w)) (store_faults w) (tl (remote_answers w))
     (outbox w ++ [(SendMessage (cs_chat_id r) (Text (cs_welcome_message r)),
                    next_answer w)])).
Proof.
  destruct w as [d fs ans ob]. unfold quiet. simpl. intros ->.
  reflexivity.
Qed.

Lemma save_message_quiet (now : Clock) (chat_id message_id user_id : Z)
    (text type sid : string) (w : World) :
  quiet w ->
  save_message now chat_id message_id user_id text type sid w =
  (Returned tt,
   with_db (Sql.insert_saved_message chat_id message_id user_id
              (PyStr.slice_to 500 text) type (now_iso now) sid (db w)) w).
Proof.
  destruct w as [d fs ans ob]. unfold quiet. simpl. intros ->.
  reflexivity.
Qed.

End Running.

(** ** Facts about the statements *)

Section Tables.

Lemma select_chat_Some (c : Z) (d : DB) (r : ChatSettings) :
  Sql.select_chat c d = Some r -> In r (chat_settings d) /\ cs_chat_id r = c.
Proof.
  unfold Sql.select_chat. intros H. apply find_some in H as [Hin Heq].
  split; [assumption | now apply Z.eqb_eq].
Qed.

Lemma select_chat_In (d : DB) (r : ChatSettings) :
  NoDup (map cs_chat_id (chat_settings d)) ->
  In r (chat_settings d) -> Sql.select_chat (cs_chat_id r) d = Some r.
Proof.
  unfold Sql.select_chat. induction (chat_settings d) as [|x l IH]; simpl; [easy|].
  intros Hnd [->|Hin].
  - now rewrite Z.eqb_refl.
  - inversion Hnd as [|? ? Hx Hl]; subst.
    destruct (Z.eqb_spec (cs_chat_id x) (cs_chat_id r)) as [E|_]; [|auto].
    exfalso. apply Hx. rewrite E. now apply in_map.
Qed.

Lemma select_chat_update (c c' : Z) (f : ChatSettings -> ChatSettings) (d : DB) :
  keeps_chat_id f ->
  Sql.select_chat c' (Sql.update_chat c f d) =
  if c' =? c then option_map f (Sql.select_chat c d) else Sql.select_chat c' d.
Proof.
  intros Hf. unfold Sql.select_chat, Sql.update_chat. simpl.
  induction (chat_settings d) as [|x l IH]; simpl.
  - now destruct (c' =? c).
  - rewrite IH. clear IH.
    destruct (Z.eqb_spec (cs_chat_id x) c) as [E|E].
    + rewrite Hf, E.
      destruct (Z.eqb_spec c c') as [<-|N].
      * now rewrite Z.eqb_refl.
      * destruct (Z.eqb_spec c' c); [congruence|reflexivity].
    + destruct (Z.eqb_spec (cs_chat_id x) c') as [E'|E'].
      * destruct (Z.eqb_spec c' c); [congruence|reflexivity].
      * reflexivity.
Qed.

Lemma update_chat_ids (c : Z) (f : ChatSettings -> ChatSettings) (d : DB) :
  keeps_chat_id f ->
  map cs_chat_id (chat_settings (Sql.update_chat c f d)) = map cs_chat_id (chat_settings d).
Proof.
  intros Hf. simpl. rewrite map_map. apply map_ext. intros r.
  destruct (cs_chat_id r =? c); [apply Hf|reflexivity].
Qed.

Lemma update_chat_other_rows (c : Z) (f : ChatSettings -> ChatSettings) (d : DB)
    (r : ChatSettings) :
  cs_chat_id r <> c -> In r (chat_settings d) -> In r (chat_settings (Sql.update_chat c f d)).
Proof.
  intros Hne Hin. simpl. apply in_map_iff. exists r. split; [|assumption].
  destruct (Z.eqb_spec (cs_chat_id r) c); [contradiction|reflexivity].
Qed.

Lemma keeps_set_activated date : keeps_chat_id (Sql.set_activated date).
Proof. now intros r. Qed.
Lemma keeps_set_deactivated : keeps_chat_id Sql.set_deactivated.
Proof. now intros r. Qed.
Lemma keeps_set_night_mode_enabled v : keeps_chat_id (Sql.set_night_mode_enabled v).
Proof. now intros r. Qed.
Lemma keeps_set_start_time v : keeps_chat_id (Sql.set_start_time v).
Proof. now intros r. Qed.
Lemma keeps_set_end_time v : keeps_chat_id (Sql.set_end_time v).
Proof. now intros r. Qed.
Lemma keeps_set_welcome_message v : keeps_chat_id (Sql.set_welcome_message v).
Proof. now intros r. Qed.

(** The row picked by [ORDER BY ... LIMIT 1] is one of the rows given. *)
Lemma latest_In (rows : list NightSession) :
  forall best x, Sql.latest best rows = Some x -> best = Some x \/ In x rows.
Proof.
  induction rows as [|r rows IH]; simpl; intros best x H; [auto|].
  destruct best as [b|].
  - destruct (String.ltb (ns_start_time b) (ns_start_time r));
      apply IH in H as [H|H]; auto.
    injection H as ->. auto.
  - apply IH in H as [H|H]; auto. injection H as ->. auto.
Qed.

Lemma latest_Some_best (rows : list NightSession) :
  forall b, Sql.latest (Some b) rows <> None.
Proof.
  induction rows as [|r rows IH]; simpl; intros b; [discriminate|].
  destruct (String.ltb (ns_start_time b) (ns_start_time r)); apply IH.
Qed.

Lemma latest_None (rows : list NightSession) :
  Sql.latest None rows = None -> rows = [].
Proof.
  destruct rows as [|r rows]; simpl; [reflexivity|].
  intros H. now apply latest_Some_best in H.
Qed.

Lemma select_open_session_None (c : Z) (d : DB) :
  Sql.select_open_session c d = None <-> open_count c d = 0%nat.
Proof.
  unfold Sql.select_open_session, open_count. split.
  - intros H.
    destruct (Sql.latest None (filter (Sql.is_open_for c) (night_sessions d))) eqn:E;
      [discriminate|].
    apply latest_None in E. now rewrite E.
  - intros H. apply length_zero_iff_nil in H. now rewrite H.
Qed.

Lemma select_open_session_Some (c : Z) (d : DB) (sid : string) :
  Sql.select_open_session c d = Some sid ->
  exists r, In r (night_sessions d) /\ ns_session_id r = sid /\
            ns_chat_id r = c /\ ns_is_completed r = 0.
Proof.
  unfold Sql.select_open_session. intros H.
  destruct (Sql.latest None (filter (Sql.is_open_for c) (night_sessions d))) as [r|] eqn:E;
    [|discriminate].
  injection H as H. apply latest_In in E as [E|E]; [discriminate|].
  apply filter_In in E as [Hin Hopen]. unfold Sql.is_open_for in Hopen.
  apply andb_true_iff in Hopen as [Hc Hz].
  exists r. repeat split; auto; now apply Z.eqb_eq.
Qed.

(** With one selected row there is nothing to order. *)
Lemma filter_length_one {A} (p : A -> bool) (l : list A) (a b : A) :
  List.length (filter p l) = 1%nat ->
  In a l -> p a = true -> In b l -> p b = true -> a = b.
Proof.
  intros H Ha Pa Hb Pb.
  assert (Ia : In a (filter p l)) by (apply filter_In; auto).
  assert (Ib : In b (filter p l)) by (apply filter_In; auto).
  destruct (filter p l) as [|x [|y l']]; simpl in *; try discriminate; try contradiction.
  destruct Ia as [<-|[]], Ib as [<-|[]]. reflexivity.
Qed.

(** A key stays a key of the rows that a WHERE clause selects. *)
Lemma NoDup_map_filter {Row Key} (key : Row -> Key) (keep : Row -> bool) :
  forall rows : list Row,
    NoDup (map key rows) -> NoDup (map key (filter keep rows)).
Proof.
  intros rows. induction rows as [|x rows IH]; simpl; intros H; [constructor|].
  inversion H as [|? ? Hx Hrows]; subst.
  destruct (keep x); simpl; auto. constructor; auto.
  intros Hin. apply Hx. apply in_map_iff in Hin as (y & Hy & Hin).
  apply in_map_iff. exists y. split; [assumption|]. now apply filter_In in Hin.
Qed.

Lemma NoDup_map_In_eq {A B} (f : A -> B) (l : list A) (a b : A) :
  NoDup (map f l) -> In a l -> In b l -> f a = f b -> a = b.
Proof.
  induction l as [|x l IH]; simpl; intros H Ha Hb E; [contradiction|].
  inversion H as [|? ? Hx Hl]; subst.
  destruct Ha as [->|Ha], Hb as [->|Hb]; auto.
  - exfalso. apply Hx. rewrite E. now apply in_map.
  - exfalso. apply Hx. rewrite <- E. now apply in_map.
Qed.

Lemma filter_ext_length {A} (p q : A -> bool) (l : list A) :
  (forall x, In x l -> p x = q x) -> filter p l = filter q l.
Proof.
  induction l as [|x l IH]; simpl; intros H; [reflexivity|].
  rewrite (H x) by auto. rewrite IH by auto. reflexivity.
Qed.

Lemma filter_map_length {A B} (p : B -> bool) (g : A -> B) (l : list A) :
  List.length (filter p (map g l)) = List.length (filter (fun x => p (g x)) l).
Proof.
  induction l as [|x l IH]; [reflexivity|].
  cbn [map filter]. destruct (p (g x)); cbn [List.length]; now rewrite IH.
Qed.

Lemma filter_none {A} (p : A -> bool) (l : list A) :
  (forall x, In x l -> p x = false) -> filter p l = [].
Proof.
  induction l as [|x l IH]; intros H; [reflexivity|].
  cbn [filter]. rewrite (H x) by (now left). apply IH. intros y Hy. apply H. now right.
Qed.

End Tables.

(** ** The data-model invariant is kept by every statement sequence *)

Section Consistency.

Lemma NoDup_snoc {A} (l : list A) (a : A) : NoDup l -> ~ In a l -> NoDup (l ++ [a]).
Proof.
  induction l as [|x l IH]; simpl; intros H Ha.
  - constructor; [easy|constructor].
  - inversion H as [|? ? Hx Hl]; subst. constructor.
    + intros Hin. apply in_app_or in Hin as [Hin|[->|[]]]; auto.
    + apply IH; auto.
Qed.

Lemma filter_skips {A} (p q : A -> bool) (l : list A) :
  (forall x, In x l -> q x = false -> p x = false) ->
  filter p (filter q l) = filter p l.
Proof.
  induction l as [|x l IH]; simpl; intros H; [reflexivity|].
  destruct (q x) eqn:Q; simpl.
  - rewrite IH by auto. reflexivity.
  - rewrite (H x) by auto. apply IH. auto.
Qed.

Lemma filter_filter_nil {A} (p q : A -> bool) (l : list A) :
  filter p l = [] -> filter p (filter q l) = [].
Proof.
  induction l as [|x l IH]; simpl; [reflexivity|].
  destruct (p x) eqn:P; [discriminate|]. intros H.
  destruct (q x); simpl; [rewrite P|]; auto.
Qed.

Lemma chat_active_update (c c' : Z) (f : ChatSettings -> ChatSettings) (d : DB) :
  keeps_chat_id f ->
  chat_active c' (Sql.update_chat c f d) =
  if c' =? c
  then match Sql.select_chat c d with
       | Some r => truthy (cs_is_night_mode_active (f r))
       | None => false
       end
  else chat_active c' d.
Proof.
  intros Hf. unfold chat_active. rewrite select_chat_update by assumption.
  destruct (c' =? c); [|reflexivity].
  now destruct (Sql.select_chat c d).
Qed.

Lemma session_row_chat (d : DB) (r : NightSession) (c : Z) (stamp : string) :
  consistent d -> In r (night_sessions d) ->
  ns_session_id r = make_session_id c stamp -> ns_chat_id r = c.
Proof.
  intros Hc Hin E. destruct (session_ids d Hc r Hin) as [s Hs].
  rewrite Hs in E. now apply make_session_id_inj in E.
Qed.

Lemma opened_consistent (now : Clock) (r : ChatSettings) (d : DB) :
  consistent d -> In r (chat_settings d) ->
  truthy (cs_is_night_mode_active r) = false ->
  consistent (opened now r d).
Proof.
  intros Hc Hin Hflag.
  set (c := cs_chat_id r). set (sid := make_session_id c (now_stamp now)).
  assert (Hsel : Sql.select_chat c d = Some r)
    by (apply select_chat_In; [apply (chat_key d Hc)|assumption]).
  assert (Hzero : filter (Sql.is_open_for c) (night_sessions d) = []).
  { apply length_zero_iff_nil. fold (open_count c d).
    rewrite (flag_counts d Hc). unfold chat_active. now rewrite Hsel, Hflag. }
  constructor.
  - unfold opened. rewrite update_chat_ids by apply keeps_set_activated.
    apply (chat_key d Hc).
  - simpl. rewrite map_app. simpl. apply NoDup_snoc.
    + apply NoDup_map_filter, (session_key d Hc).
    + intros H. apply in_map_iff in H as (x & Hx & Hf).
      apply filter_In in Hf as [_ Hf]. fold c sid in Hf.
      rewrite Hx, String.eqb_refl in Hf. discriminate.
  - simpl. intros x Hx. apply in_app_or in Hx as [Hx|[<-|[]]].
    + apply filter_In in Hx as [Hx _]. apply (session_ids d Hc x Hx).
    + simpl. now exists (now_stamp now).
  - intros c'. unfold opened. fold c sid.
    rewrite chat_active_update by apply keeps_set_activated.
    change (Sql.select_chat c (Sql.insert_or_replace_session sid c (now_iso now)
                                  (cs_end_time r) d))
      with (Sql.select_chat c d).
    rewrite Hsel. unfold open_count. simpl. rewrite filter_app, length_app. simpl.
    unfold Sql.is_open_for at 2. simpl.
    destruct (Z.eqb_spec c' c) as [->|N].
    + rewrite Z.eqb_refl. simpl. rewrite (filter_filter_nil _ _ _ Hzero). reflexivity.
    + destruct (Z.eqb_spec c c'); [congruence|]. simpl.
      rewrite filter_skips.
      * rewrite Nat.add_0_r. apply (flag_counts d Hc).
      * intros x Hx Hq. apply negb_false_iff, String.eqb_eq in Hq.
        unfold Sql.is_open_for.
        rewrite (session_row_chat d x c (now_stamp now) Hc Hx Hq).
        destruct (Z.eqb_spec c c'); [congruence|reflexivity].
Qed.

Lemma closed_consistent (c : Z) (sid : string) (n : Z) (d : DB) :
  consistent d -> Sql.select_open_session c d = Some sid ->
  consistent (Sql.update_chat c Sql.set_deactivated (Sql.complete_session n sid d)).
Proof.
  intros Hc Hsel.
  destruct (select_open_session_Some c d sid Hsel) as (r0 & Hin0 & Hid0 & Hchat0 & Hopen0).
  assert (Hr0 : Sql.is_open_for c r0 = true)
    by (unfold Sql.is_open_for; now rewrite Hchat0, Hopen0, Z.eqb_refl).
  assert (Hone : open_count c d = 1%nat).
  { pose proof (flag_counts d Hc c) as H. destruct (chat_active c d); [assumption|].
    unfold open_count in H. apply length_zero_iff_nil in H.
    assert (Hf : In r0 (filter (Sql.is_open_for c) (night_sessions d)))
      by (apply filter_In; auto).
    rewrite H in Hf. destruct Hf. }
  set (g := fun r => if (ns_session_id r =? sid)%string
                     then mkNightSession (ns_session_id r) (ns_chat_id r) (ns_start_time r)
                            (ns_end_time r) n 1
                     else r).
  assert (Hg_id : forall x, ns_session_id (g x) = ns_session_id x)
    by (intros x; unfold g; now destruct (ns_session_id x =? sid)%string).
  assert (Hg_chat : forall x, ns_chat_id (g x) = ns_chat_id x)
    by (intros x; unfold g; now destruct (ns_session_id x =? sid)%string).
  constructor.
  - rewrite update_chat_ids by apply keeps_set_deactivated. apply (chat_key d Hc).
  - simpl. fold g. rewrite map_map. rewrite (map_ext _ ns_session_id) by apply Hg_id.
    apply (session_key d Hc).
  - simpl. fold g. intros x Hx. apply in_map_iff in Hx as (y & <- & Hy).
    rewrite Hg_id, Hg_chat. apply (session_ids d Hc y Hy).
  - intros c'. rewrite chat_active_update by apply keeps_set_deactivated.
    change (Sql.select_chat c (Sql.complete_session n sid d)) with (Sql.select_chat c d).
    unfold open_count. simpl. fold g.
    rewrite filter_map_length.
    destruct (Z.eqb_spec c' c) as [->|N].
    + rewrite filter_none.
      * now destruct (Sql.select_chat c d).
      * intros x Hx. unfold g, Sql.is_open_for.
        destruct (String.eqb_spec (ns_session_id x) sid) as [E|E]; simpl.
        -- apply andb_false_r.
        -- destruct ((ns_chat_id x =? c) && (ns_is_completed x =? 0)) eqn:Hopen;
             [|reflexivity].
           exfalso. apply E. rewrite <- Hid0. f_equal.
           apply (filter_length_one (Sql.is_open_for c) (night_sessions d)); auto.
    + rewrite (filter_ext_length _ (Sql.is_open_for c')); [apply (flag_counts d Hc)|].
      intros x Hx. unfold g, Sql.is_open_for.
      destruct (String.eqb_spec (ns_session_id x) sid) as [E|E]; [|reflexivity].
      simpl.
      assert (Hx0 : x = r0).
      { apply (NoDup_map_In_eq ns_session_id (night_sessions d)); auto.
        - apply (session_key d Hc).
        - congruence. }
      subst x. rewrite Hchat0.
      destruct (Z.eqb_spec c c') as [Ecc|_]; [|reflexivity].
      now subst c'.
Qed.

End Consistency.

Section ConsistencyOfSettings.

Lemma empty_db_consistent : consistent empty_db.
Proof. constructor; simpl; try constructor; try easy. Qed.

Lemma update_chat_consistent (c : Z) (f : ChatSettings -> ChatSettings) (d : DB) :
  keeps_chat_id f ->
  (forall r, cs_is_night_mode_active (f r) = cs_is_night_mode_active r) ->
  consistent d -> consistent (Sql.update_chat c f d).
Proof.
  intros Hf Hflag Hc. constructor.
  - rewrite update_chat_ids by assumption. apply (chat_key d Hc).
  - apply (session_key d Hc).
  - apply (session_ids d Hc).
  - intros c'. rewrite chat_active_update by assumption.
    change (open_count c' (Sql.update_chat c f d)) with (open_count c' d).
    rewrite (flag_counts d Hc). unfold chat_active.
    destruct (Z.eqb_spec c' c) as [->|_]; [|reflexivity].
    destruct (Sql.select_chat c d); [now rewrite Hflag|reflexivity].
Qed.

Lemma insert_saved_message_consistent (c m u : Z) (text type date sid : string) (d : DB) :
  consistent d -> consistent (Sql.insert_saved_message c m u text type date sid d).
Proof.
  intros Hc. constructor.
  - apply (chat_key d Hc).
  - apply (session_key d Hc).
  - apply (session_ids d Hc).
  - apply (flag_counts d Hc).
Qed.

Lemma untracked_not_in (c : Z) (l : list ChatSettings) :
  find (fun r => cs_chat_id r =? c) l = None ->
  filter (fun r => negb (cs_chat_id r =? c)) l = l /\ ~ In c (map cs_chat_id l).
Proof.
  induction l as [|x l IH]; simpl; [auto|].
  destruct (Z.eqb_spec (cs_chat_id x) c) as [E|N]; [discriminate|].
  intros H. destruct (IH H) as [Hf Hn]. simpl. rewrite Hf. split; [reflexivity|].
  intros [E|Hin]; auto.
Qed.

Lemma find_snoc {A} (p : A -> bool) (l : list A) (x : A) :
  find p (l ++ [x]) =
  match find p l with
  | Some y => Some y
  | None => if p x then Some x else None
  end.
Proof.
  induction l as [|y l IH]; simpl; [reflexivity|]. now destruct (p y).
Qed.

Lemma insert_or_replace_chat_consistent (c : Z) (added : string) (d : DB) :
  consistent d -> tracked c d = false ->
  consistent (Sql.insert_or_replace_chat c added d).
Proof.
  intros Hc Ht. unfold tracked, Sql.select_chat in Ht.
  destruct (find (fun r => cs_chat_id r =? c) (chat_settings d)) eqn:Hfind; [discriminate|].
  destruct (untracked_not_in c _ Hfind) as [Hf Hn].
  assert (Hinactive : chat_active c d = false)
    by (unfold chat_active, Sql.select_chat; now rewrite Hfind).
  constructor.
  - simpl. rewrite Hf, map_app. simpl. apply NoDup_snoc; [apply (chat_key d Hc)|assumption].
  - apply (session_key d Hc).
  - apply (session_ids d Hc).
  - intros c'.
    change (open_count c' (Sql.insert_or_replace_chat c added d)) with (open_count c' d).
    rewrite (flag_counts d Hc). unfold chat_active, Sql.select_chat. simpl. rewrite Hf.
    destruct (Z.eqb_spec c' c) as [->|N].
    + rewrite find_snoc, Hfind. simpl. now rewrite Z.eqb_refl.
    + rewrite find_snoc. simpl.
      destruct (find (fun r => cs_chat_id r =? c') (chat_settings d)); [reflexivity|].
      destruct (Z.eqb_spec c c'); [congruence|reflexivity].
Qed.

End ConsistencyOfSettings.

(** ** A tick while the store is quiet *)

Section QuietTick.

Lemma check_chat_quiet (now : Clock) (r : ChatSettings) (w : World) :
  quiet w -> check_chat now r w = (Returned tt, checked now w r).
Proof.
  intros Hq. unfold check_chat, checked.
  destruct ((now_hm now =? cs_start_time r)%string
            && negb (truthy (cs_is_night_mode_active r))).
  - now apply start_night_mode_quiet.
  - destruct ((now_hm now =? cs_end_time r)%string && truthy (cs_is_night_mode_active r)).
    + now apply end_night_mode_quiet.
    + reflexivity.
Qed.

Lemma purged_quiet (c : Z) (sid : string) (w : World) : quiet w -> quiet (purged c sid w).
Proof.
  unfold quiet, purged. intros H. now destruct (Sql.select_chat c (db w)).
Qed.

Lemma checked_quiet (now : Clock) (r : ChatSettings) (w : World) :
  quiet w -> quiet (checked now w r).
Proof.
  intros Hq. unfold checked.
  destruct (_ && _); [exact Hq|].
  destruct (_ && _); [|exact Hq].
  destruct (Sql.select_open_session _ _); [now apply purged_quiet|exact Hq].
Qed.

Lemma for_each_quiet (now : Clock) (rows : list ChatSettings) :
  forall w, quiet w ->
    for_each rows (check_chat now) w = (Returned tt, fold_left (checked now) rows w).
Proof.
  induction rows as [|r rows IH]; intros w Hq; simpl; [reflexivity|].
  unfold bind. rewrite check_chat_quiet by assumption.
  apply IH. now apply checked_quiet.
Qed.

Lemma background_time_check_quiet (now : Clock) (w : World) :
  quiet w ->
  background_time_check now w =
  (Returned tt, fold_left (checked now) (Sql.select_enabled_chats (db w)) w).
Proof.
  intros Hq. unfold background_time_check, try_except, bind.
  rewrite query_quiet by assumption. now rewrite for_each_quiet.
Qed.

End QuietTick.

(** ** The loop body touches the rows of its own chat only *)

Section Frame.

Lemma same_chat_refl (c : Z) (d : DB) : same_chat c d d.
Proof. now split. Qed.

Lemma same_chat_trans (c : Z) (d1 d2 d3 : DB) :
  same_chat c d1 d2 -> same_chat c d2 d3 -> same_chat c d1 d3.
Proof. intros [A B] [C D]. split; congruence. Qed.

Lemma filter_map_fixed {A} (p : A -> bool) (g : A -> A) (l : list A) :
  (forall x, In x l -> g x = x \/ (p x = false /\ p (g x) = false)) ->
  filter p (map g l) = filter p l.
Proof.
  induction l as [|x l IH]; intros H; [reflexivity|].
  cbn [map filter]. rewrite IH by (intros y Hy; apply H; now right).
  destruct (H x (or_introl eq_refl)) as [->|[-> ->]]; reflexivity.
Qed.

Lemma db_purged (c : Z) (sid : string) (w : World) :
  exists n, db (purged c sid w)
            = Sql.update_chat c Sql.set_deactivated (Sql.complete_session n sid (db w)).
Proof.
  unfold purged. destruct (Sql.select_chat c (db w)); simpl; eauto.
Qed.

Lemma opened_same_chat (now : Clock) (r : ChatSettings) (d : DB) (c : Z) :
  consistent d -> c <> cs_chat_id r -> same_chat c d (opened now r d).
Proof.
  intros Hc N. split.
  - unfold opened. rewrite select_chat_update by apply keeps_set_activated.
    destruct (Z.eqb_spec c (cs_chat_id r)); [contradiction|reflexivity].
  - unfold sessions_of, opened. simpl. rewrite filter_app. simpl.
    destruct (Z.eqb_spec (cs_chat_id r) c); [congruence|]. rewrite app_nil_r.
    apply filter_skips. intros x Hx Hq.
    apply negb_false_iff, String.eqb_eq in Hq.
    rewrite (session_row_chat d x _ _ Hc Hx Hq).
    destruct (Z.eqb_spec (cs_chat_id r) c); [congruence|reflexivity].
Qed.

Lemma closed_same_chat (c0 c : Z) (sid : string) (n : Z) (d : DB) :
  consistent d -> Sql.select_open_session c0 d = Some sid -> c <> c0 ->
  same_chat c d (Sql.update_chat c0 Sql.set_deactivated (Sql.complete_session n sid d)).
Proof.
  intros Hc Hsel N.
  destruct (select_open_session_Some c0 d sid Hsel) as (r0 & Hin0 & Hid0 & Hchat0 & _).
  split.
  - rewrite select_chat_update by apply keeps_set_deactivated.
    destruct (Z.eqb_spec c c0); [contradiction|reflexivity].
  - unfold sessions_of. simpl. apply filter_map_fixed. intros x Hx.
    destruct (String.eqb_spec (ns_session_id x) sid) as [E|E]; [right|now left].
    assert (Hx0 : x = r0).
    { apply (NoDup_map_In_eq ns_session_id (night_sessions d)); auto.
      - apply (session_key d Hc).
      - congruence. }
    subst x. simpl. rewrite Hchat0.
    destruct (Z.eqb_spec c0 c); [congruence|auto].
Qed.

Lemma checked_step (now : Clock) (r : ChatSettings) (w : World) :
  sound w -> In r (chat_settings (db w)) ->
  sound (checked now w r) /\
  saved_messages (db (checked now w r)) = saved_messages (db w) /\
  forall c, c <> cs_chat_id r ->
    same_chat c (db w) (db (checked now w r)) /\
    forall r', cs_chat_id r' = c -> In r' (chat_settings (db w)) ->
               In r' (chat_settings (db (checked now w r))).
Proof.
  intros [Hq Hc] Hin. unfold checked.
  destruct ((now_hm now =? cs_start_time r)%string
            && negb (truthy (cs_is_night_mode_active r))) eqn:Hopen.
  - apply andb_true_iff in Hopen as [_ Hflag]. apply negb_true_iff in Hflag.
    split; [split; [exact Hq|now apply opened_consistent]|].
    split; [reflexivity|]. intros c N. split.
    + now apply opened_same_chat.
    + intros r' Hr' Hin'. simpl. apply update_chat_other_rows; [congruence|assumption].
  - destruct ((now_hm now =? cs_end_time r)%string && truthy (cs_is_night_mode_active r)).
    2:{ split; [now split|]. split; [reflexivity|].
        intros c N. split; [apply same_chat_refl|auto]. }
    destruct (Sql.select_open_session (cs_chat_id r) (db w)) as [sid|] eqn:Hsel.
    2:{ split; [now split|]. split; [reflexivity|].
        intros c N. split; [apply same_chat_refl|auto]. }
    destruct (db_purged (cs_chat_id r) sid w) as [n Hn]. unfold sound. rewrite Hn.
    split; [split; [now apply purged_quiet|now apply closed_consistent]|].
    split; [reflexivity|]. intros c N. split.
    + now apply closed_same_chat.
    + intros r' Hr' Hin'. apply update_chat_other_rows; [congruence|assumption].
Qed.

(** The loop over the rows of the SELECT. *)
Lemma checked_loop (now : Clock) (rows : list ChatSettings) :
  forall w,
    sound w -> NoDup (map cs_chat_id rows) ->
    (forall r, In r rows -> In r (chat_settings (db w))) ->
    let w' := fold_left (checked now) rows w in
    sound w' /\
    saved_messages (db w') = saved_messages (db w) /\
    forall c, ~ In c (map cs_chat_id rows) ->
      same_chat c (db w) (db w') /\
      forall r', cs_chat_id r' = c -> In r' (chat_settings (db w)) ->
                 In r' (chat_settings (db w')).
Proof.
  induction rows as [|r rows IH]; intros w Hs Hnd Hrows; simpl.
  - split; [exact Hs|]. split; [reflexivity|].
    intros c N. split; [apply same_chat_refl|auto].
  - inversion Hnd as [|? ? Hr Hnd']; subst.
    destruct (checked_step now r w Hs (Hrows r (or_introl eq_refl)))
      as (Hs1 & Hsaved1 & Hframe1).
    assert (Hrows1 : forall x, In x rows -> In x (chat_settings (db (checked now w r)))).
    { intros x Hx.
      assert (N : cs_chat_id x <> cs_chat_id r)
        by (intros E; apply Hr; rewrite <- E; now apply in_map).
      apply (proj2 (Hframe1 _ N) x eq_refl). apply Hrows. now right. }
    destruct (IH (checked now w r) Hs1 Hnd' Hrows1) as (Hs2 & Hsaved2 & Hframe2).
    split; [exact Hs2|]. split; [congruence|].
    intros c Hc. simpl in Hc.
    assert (N : c <> cs_chat_id r) by (intros E; apply Hc; now left).
    assert (Hc' : ~ In c (map cs_chat_id rows)) by (intros E; apply Hc; now right).
    destruct (Hframe1 c N) as [F1 R1]. destruct (Hframe2 c Hc') as [F2 R2].
    split; [eapply same_chat_trans; eassumption|].
    intros r' E Hin. apply R2; auto.
Qed.

End Frame.

(** ** Composing methods *)

Section Steps.

Variable R : World -> World -> Prop.
Hypothesis R_refl : forall w, R w w.
Hypothesis R_trans : forall w1 w2 w3, R w1 w2 -> R w2 w3 -> R w1 w3.

Lemma steps_ret {A} (a : A) : steps R (ret a).
Proof. intros w. apply R_refl. Qed.

Lemma steps_bind {A B} (m : M A) (k : A -> M B) :
  steps R m -> (forall a, steps R (k a)) -> steps R (bind m k).
Proof.
  intros Hm Hk w. unfold bind. specialize (Hm w).
  destruct (m w) as [[a|e] w1]; simpl in *; [|assumption].
  eapply R_trans; [eassumption|apply Hk].
Qed.

Lemma steps_try_except {A} (m : M A) (h : exn -> M A) :
  steps R m -> (forall e, steps R (h e)) -> steps R (try_except m h).
Proof.
  intros Hm Hh w. unfold try_except. specialize (Hm w).
  destruct (m w) as [[a|e] w1]; simpl in *; [assumption|].
  eapply R_trans; [eassumption|apply Hh].
Qed.

Lemma steps_for_each {A} (xs : list A) (body : A -> M unit) :
  (forall x, steps R (body x)) -> steps R (for_each xs body).
Proof.
  intros Hb. induction xs as [|x xs IH]; simpl.
  - apply steps_ret.
  - apply steps_bind; auto.
Qed.

Lemma steps_if {A} (b : bool) (m1 m2 : M A) :
  steps R m1 -> steps R m2 -> steps R (if b then m1 else m2).
Proof. now destruct b. Qed.

End Steps.

(** *** The retention store only grows *)

Section Growth.

Lemma grows_refl (d : DB) : grows d d.
Proof. exists []. split; [now rewrite app_nil_r|constructor]. Qed.

Lemma grows_trans (d1 d2 d3 : DB) : grows d1 d2 -> grows d2 d3 -> grows d1 d3.
Proof.
  intros (n1 & E1 & F1) (n2 & E2 & F2). exists (n1 ++ n2). split.
  - now rewrite E2, E1, app_assoc.
  - apply Forall_app. now split.
Qed.

Lemma store_grows_refl (w : World) : store_grows w w.
Proof. apply grows_refl. Qed.

Lemma store_grows_trans (w1 w2 w3 : World) :
  store_grows w1 w2 -> store_grows w2 w3 -> store_grows w1 w3.
Proof. apply grows_trans. Qed.

Lemma grows_same (d d' : DB) : saved_messages d' = saved_messages d -> grows d d'.
Proof. intros E. exists []. split; [now rewrite app_nil_r|constructor]. Qed.

Lemma query_grows {A} (q : DB -> A) : steps store_grows (query q).
Proof. intros w. unfold query. destruct (next_fault w); apply grows_refl. Qed.

Lemma request_grows (c : Call) : steps store_grows (request c).
Proof. intros w. apply grows_refl. Qed.

Lemma execute_grows (stmt : DB -> DB) :
  (forall d, grows d (stmt d)) -> steps store_grows (execute stmt).
Proof.
  intros H w. unfold execute. destruct (next_fault w); [apply grows_refl|apply H].
Qed.

Lemma slice_to_length (n : nat) (s : string) :
  String.length (PyStr.slice_to n s) = Nat.min n (String.length s).
Proof.
  revert s. induction n as [|n IH]; intros [|a s]; simpl; auto.
Qed.

Lemma insert_saved_message_grows (c m u : Z) (text type date sid : string) (d : DB) :
  grows d (Sql.insert_saved_message c m u (PyStr.slice_to 500 text) type date sid d).
Proof.
  eexists. split; [reflexivity|]. constructor; [|constructor].
  cbv beta iota zeta delta [bounded_text sm_message_text].
  rewrite slice_to_length. apply Nat.le_min_l.
Qed.

End Growth.

(** Walks through the structure of a method; leaves the statements. *)
Ltac walk refl trans :=
  repeat match goal with
    | |- forall _, _ => intro
    | |- steps _ (bind _ _) => apply steps_bind; [exact trans| |]
    | |- steps _ (try_except _ _) => apply steps_try_except; [exact trans| |]
    | |- steps _ (for_each _ _) => apply steps_for_each; [exact refl|exact trans|]
    | |- steps _ (ret _) => apply steps_ret; exact refl
    | |- steps _ (match ?x with _ => _ end) => destruct x
    end.

Ltac step_grows :=
  repeat first
    [ progress walk store_grows_refl store_grows_trans
    | apply query_grows
    | apply request_grows
    | apply execute_grows; intros; first [apply insert_saved_message_grows
                                         | apply grows_same; reflexivity] ].

(** The methods in terms of statements, requests and [end_night_mode]. *)
Ltac unfold_handlers :=
  unfold exec, handle_group_message, capture, save_message, show_group_status, test_night,
    handle_time_input, add_chat, show_chat_settings, update_start_time, update_end_time,
    update_welcome_message, enable_night_mode, disable_night_mode,
    get_chat_settings, get_current_session, is_user_admin, send_message, commit.

Ltac unfold_methods :=
  unfold background_time_check, check_chat, start_night_mode, end_night_mode;
  unfold_handlers; unfold delete_message.

Section GrowthOfMethods.

Lemma delete_all_grows (c : Z) (messages : list Z) :
  forall acc, steps store_grows (delete_all c messages acc).
Proof.
  induction messages as [|m ms IH]; intros acc; simpl.
  - step_grows.
  - unfold delete_message. step_grows. apply IH.
Qed.

Lemma end_night_mode_grows (c : Z) : steps store_grows (end_night_mode c).
Proof.
  unfold_methods. step_grows. apply delete_all_grows.
Qed.

(** Every operation of the bot leaves the retention store grown. *)
Lemma exec_grows (op : Op) : steps store_grows (exec op).
Proof.
  destruct op; unfold exec; unfold_methods;
    repeat first [ progress step_grows | apply delete_all_grows
                 | apply end_night_mode_grows ].
Qed.

Lemma run_all_grows (ops : list Op) : forall w, grows (db w) (db (run_all ops w)).
Proof.
  induction ops as [|op ops IH]; intros w; simpl.
  - apply grows_refl.
  - eapply grows_trans; [apply (exec_grows op w)|apply IH].
Qed.

End GrowthOfMethods.

(** *** Soundness is kept by every operation *)

Section Soundness.

Lemma stays_sound_refl (w : World) : stays_sound w w.
Proof. exact (fun H => H). Qed.

Lemma stays_sound_trans (w1 w2 w3 : World) :
  stays_sound w1 w2 -> stays_sound w2 w3 -> stays_sound w1 w3.
Proof. unfold stays_sound. auto. Qed.

Lemma query_sound {A} (q : DB -> A) : steps stays_sound (query q).
Proof. intros w [Hq Hc]. rewrite query_quiet by assumption. now split. Qed.

Lemma request_sound (c : Call) : steps stays_sound (request c).
Proof. intros w [Hq Hc]. now split. Qed.

Lemma execute_sound (stmt : DB -> DB) :
  (forall d, consistent d -> consistent (stmt d)) -> steps stays_sound (execute stmt).
Proof.
  intros H w [Hq Hc]. rewrite execute_quiet by assumption. split; [exact Hq|now apply H].
Qed.

Lemma purged_sound (c : Z) (sid : string) (w : World) :
  sound w -> Sql.select_open_session c (db w) = Some sid -> sound (purged c sid w).
Proof.
  intros [Hq Hc] Hsel. split; [now apply purged_quiet|].
  destruct (db_purged c sid w) as [n ->]. now apply closed_consistent.
Qed.

Lemma end_night_mode_sound (c : Z) : steps stays_sound (end_night_mode c).
Proof.
  intros w Hs. rewrite end_night_mode_quiet by apply Hs. simpl.
  destruct (Sql.select_open_session c (db w)) eqn:Hsel; [now apply purged_sound|exact Hs].
Qed.

Lemma selected_rows (d : DB) :
  consistent d ->
  NoDup (map cs_chat_id (Sql.select_enabled_chats d)) /\
  forall r, In r (Sql.select_enabled_chats d) -> In r (chat_settings d).
Proof.
  intros Hc. split.
  - apply NoDup_map_filter, (chat_key d Hc).
  - intros r Hr. now apply filter_In in Hr.
Qed.

Lemma background_time_check_sound (now : Clock) :
  steps stays_sound (background_time_check now).
Proof.
  intros w Hs. rewrite background_time_check_quiet by apply Hs. simpl.
  destruct (selected_rows (db w) (proj2 Hs)) as [Hnd Hrows].
  apply (checked_loop now _ w Hs Hnd Hrows).
Qed.

End Soundness.

Ltac step_sound :=
  repeat first
    [ progress walk stays_sound_refl stays_sound_trans
    | apply query_sound
    | apply request_sound
    | apply end_night_mode_sound
    | apply background_time_check_sound
    | apply execute_sound; intros;
      first [ assumption
            | apply insert_saved_message_consistent; assumption
            | apply update_chat_consistent; [intro; reflexivity|intro; reflexivity|assumption] ] ].

Section SoundnessOfOperations.

Lemma add_chat_sound (now : Clock) (target chat : Z) (w : World) :
  sound w -> tracked target (db w) = false -> sound (run (add_chat now target chat) w).
Proof.
  intros [Hq Hc] Ht. unfold run, add_chat, bind at 1.
  rewrite execute_quiet by assumption.
  assert (Hs : sound (with_db (Sql.insert_or_replace_chat target (now_iso now) (db w)) w))
    by (split; [exact Hq|now apply insert_or_replace_chat_consistent]).
  revert Hs. generalize (with_db (Sql.insert_or_replace_chat target (now_iso now) (db w)) w).
  intros w1.
  change (stays_sound w1
            (snd ((commit ;;;
                   _ <- send_message chat (ChatAdded target) ;;
                   show_chat_settings chat target ;;; ret true) w1))).
  revert w1. fold (steps stays_sound
                     (commit ;;;
                      _ <- send_message chat (ChatAdded target) ;;
                      show_chat_settings chat target ;;; ret true)).
  unfold_handlers. step_sound.
Qed.

Lemma exec_sound (op : Op) (w : World) :
  sound w -> admissible op w -> sound (run (exec op) w).
Proof.
  intros Hs Ha.
  destruct op as [now|now text user chat mid type|chat|chat|chat
                 |state target chat text|target message|now target chat];
    try (revert Hs; clear Ha; revert w;
         match goal with |- forall w, sound w -> sound (run ?m w) =>
           change (steps stays_sound m) end;
         unfold_handlers; step_sound; fail).
  simpl in Ha. unfold exec, run, bind.
  pose proof (add_chat_sound now target chat w Hs Ha) as H. unfold run in H.
  destruct (add_chat now target chat w) as [[b|e] w1]; exact H.
Qed.

Lemma reachable_sound (w : World) : Reachable w -> sound w.
Proof.
  induction 1 as [|w op _ IH Ha|w answers _ IH].
  - split; [reflexivity|apply empty_db_consistent].
  - now apply exec_sound.
  - exact IH.
Qed.

End SoundnessOfOperations.

(** ** The active flag and the ledger *)

Section FlagAndLedger.



Lemma reachable_sample_configured : Reachable Sample.configured.
Proof.
  unfold Sample.configured. cbn [run_all].
  apply reach_step; [apply reach_step; [apply reach_start|reflexivity]|exact I].
Defined.

Lemma reachable_sample_in_session : Reachable Sample.in_session.
Proof.
  unfold Sample.in_session.
  apply reach_step; [apply reachable_sample_configured|exact I].
Defined.

Lemma reachable_run_all (ops : list Op) :
  forall w, Reachable w ->
    (forall op, In op ops -> forall w', admissible op w') ->
    Reachable (run_all ops w).
Proof.
  induction ops as [|op ops IH]; intros w Hw Hops; cbn [run_all]; [exact Hw|].
  apply IH.
  - apply reach_step; [exact Hw|]. apply Hops. now left.
  - intros op' Hin. apply Hops. now right.
Defined.

Lemma reachable_sample_five_captured : Reachable Sample.five_captured.
Proof.
  unfold Sample.five_captured.
  apply (reach_remote (run_all _ Sample.in_session)).
  apply reachable_run_all; [apply reachable_sample_in_session|].
  intros op Hin w'. simpl in Hin.
  repeat (destruct Hin as [<-|Hin]; [exact I|]). destruct Hin.
Defined.

End FlagAndLedger.



(** ** The purge and its report *)

Section Purge.

Lemma skipn_own_length {A} (l x : list A) : skipn (List.length l) (l ++ x) = x.
Proof. induction l as [|a l IH]; simpl; auto. Qed.

Lemma calls_since_refl (w : World) : calls_since w w = [].
Proof. unfold calls_since. apply skipn_all. Qed.

Lemma take_answers_length (n : nat) (answers : list bool) :
  List.length (take_answers n answers) = n.
Proof. revert answers. induction n as [|n IH]; intros answers; simpl; auto. Qed.

(** The requests of a purge: one deletion per captured message, then the
    report when the chat has a settings row. *)
Lemma calls_since_purged (c : Z) (sid : string) (w : World) :
  exists report,
    calls_since w (purged c sid w) =
    combine (map (DeleteMessage c) (Sql.select_session_messages c sid (db w)))
            (take_answers (List.length (Sql.select_session_messages c sid (db w)))
                          (remote_answers w)) ++ report /\
    filter (is_delete None) report = [] /\
    filter (is_delete (Some true)) report = [] /\
    filter (is_delete (Some false)) report = [].
Proof.
  unfold calls_since, purged. destruct (Sql.select_chat c (db w)); simpl.
  - eexists [_]. rewrite skipn_own_length. repeat split; reflexivity.
  - exists []. rewrite skipn_own_length, app_nil_r. repeat split; reflexivity.
Qed.

Lemma deletions_counted (c : Z) (messages : list Z) :
  forall oks, List.length oks = List.length messages ->
    let calls := combine (map (DeleteMessage c) messages) oks in
    List.length (filter (is_delete None) calls) = List.length messages /\
    List.length (filter (is_delete (Some true)) calls) = count_occ bool_dec oks true /\
    List.length (filter (is_delete (Some false)) calls) = count_occ bool_dec oks false.
Proof.
  induction messages as [|m ms IH]; intros [|ok oks] Hlen; simpl in *; try discriminate.
  - auto.
  - injection Hlen as Hlen. destruct (IH oks Hlen) as (H1 & H2 & H3).
    destruct ok; simpl; rewrite ?H1, ?H2, ?H3; auto.
Qed.

Lemma count_ok_counts (oks : list bool) :
  forall acc, count_ok acc oks = acc + Z.of_nat (count_occ bool_dec oks true).
Proof.
  induction oks as [|ok oks IH]; intros acc; simpl; [lia|].
  rewrite IH. destruct ok; simpl; lia.
Qed.

Lemma count_occ_bool (oks : list bool) :
  (count_occ bool_dec oks true + count_occ bool_dec oks false = List.length oks)%nat.
Proof. induction oks as [|[] oks IH]; simpl; lia. Qed.

(** The report of a purge in general: every captured message of the session
    is attempted once, and each attempt is counted as deleted or failed by
    the answer of the remote side. *)
Lemma purge_report_purged (c : Z) (sid : string) (w : World) :
  let messages := Sql.select_session_messages c sid (db w) in
  let oks := take_answers (List.length messages) (remote_answers w) in
  purge_report (calls_since w (purged c sid w)) =
  mkReport (List.length messages) (count_occ bool_dec oks true)
           (count_occ bool_dec oks false).
Proof.
  intros messages oks.
  destruct (calls_since_purged c sid w) as (report & -> & R1 & R2 & R3).
  fold messages oks. unfold purge_report.
  rewrite !filter_app, R1, R2, R3, !app_nil_r.
  destruct (deletions_counted c messages oks) as (H1 & H2 & H3).
  { unfold oks. apply take_answers_length. }
  simpl in H1, H2, H3. now rewrite H1, H2, H3.
Qed.

Lemma db_purged_count (c : Z) (sid : string) (w : World) :
  db (purged c sid w) =
  Sql.update_chat c Sql.set_deactivated
    (Sql.complete_session
       (count_ok 0 (take_answers (List.length (Sql.select_session_messages c sid (db w)))
                                 (remote_answers w)))
       sid (db w)).
Proof. unfold purged. now destruct (Sql.select_chat c (db w)). Qed.

Lemma purged_no_open_session (c : Z) (sid : string) (w : World) :
  sound w -> Sql.select_open_session c (db w) = Some sid ->
  chat_active c (db (purged c sid w)) = false /\
  Sql.select_open_session c (db (purged c sid w)) = None.
Proof.
  intros Hs Hsel.
  assert (Hflag : chat_active c (db (purged c sid w)) = false).
  { rewrite db_purged_count, chat_active_update by apply keeps_set_deactivated.
    rewrite Z.eqb_refl. now destruct (Sql.select_chat c _). }
  split; [exact Hflag|].
  apply select_open_session_None.
  rewrite (flag_counts _ (proj2 (purged_sound c sid w Hs Hsel))). now rewrite Hflag.
Qed.

End Purge.

(** C3.  From a world the bot reaches, closing the session of a chat twice
    purges once: the second call of [end_night_mode] leaves the world as the
    first left it (the ledger, the retention store, the settings, and no
    request is made), and its report counts zero attempts. *)
Theorem close_twice_purges_once (w : World) (chat_id : Z) :
  Reachable w ->
  let w1 := run (end_night_mode chat_id) w in
  let w2 := run (end_night_mode chat_id) w1 in
  w2 = w1 /\ purge_report (calls_since w1 w2) = mkReport 0 0 0.
Proof.
  intros Hr w1 w2. pose proof (reachable_sound w Hr) as Hs.
  assert (Hs1 : sound w1) by apply (end_night_mode_sound chat_id w Hs).
  assert (E : w2 = w1).
  { unfold w2, run. rewrite end_night_mode_quiet by apply Hs1. simpl.
    assert (Hnone : Sql.select_open_session chat_id (db w1) = None).
    { unfold w1, run. rewrite end_night_mode_quiet by apply Hs. simpl.
      destruct (Sql.select_open_session chat_id (db w)) as [sid|] eqn:Hsel.
      - now apply purged_no_open_session.
      - exact Hsel. }
    now rewrite Hnone. }
  split; [exact E|]. rewrite E, calls_since_refl. reflexivity.
Qed.

Lemma close_twice_purges_once_witness :
  let w1 := run (end_night_mode Sample.group) Sample.five_captured in
  purge_report (calls_since Sample.five_captured w1) = mkReport 5 4 1 /\
  run (end_night_mode Sample.group) w1 = w1.
Proof.
  split; [reflexivity|].
  apply (close_twice_purges_once Sample.five_captured Sample.group
           reachable_sample_five_captured).
Defined.

(** C4.  When the session open for a chat holds five captured messages and
    the remote side refuses exactly one of the five deletions, the purge
    reports five attempts, four deleted and one failed, and the session row
    is marked completed all the same, with the count of four. *)
Theorem purge_five_one_failure (w : World) (chat_id : Z) (sid : string) :
  quiet w ->
  Sql.select_open_session chat_id (db w) = Some sid ->
  List.length (Sql.select_session_messages chat_id sid (db w)) = 5%nat ->
  count_occ bool_dec (take_answers 5 (remote_answers w)) false = 1%nat ->
  let w' := run (end_night_mode chat_id) w in
  purge_report (calls_since w w') = mkReport 5 4 1 /\
  (exists r, In r (night_sessions (db w')) /\ ns_session_id r = sid) /\
  (forall r, In r (night_sessions (db w')) -> ns_session_id r = sid ->
     ns_is_completed r = 1 /\ ns_message_count r = 4).
Proof.
  intros Hq Hsel Hlen Hfail w'.
  assert (Ew : w' = purged chat_id sid w).
  { unfold w', run. rewrite end_night_mode_quiet by assumption. now rewrite Hsel. }
  pose proof (count_occ_bool (take_answers 5 (remote_answers w))) as Hsum.
  rewrite take_answers_length, Hfail in Hsum.
  assert (Hok : count_occ bool_dec (take_answers 5 (remote_answers w)) true = 4%nat) by lia.
  rewrite Ew. split; [|split].
  - rewrite purge_report_purged, Hlen, Hok, Hfail. reflexivity.
  - destruct (select_open_session_Some chat_id (db w) sid Hsel) as (r0 & Hin0 & Hid0 & _).
    rewrite db_purged_count. simpl.
    eexists. split; [apply in_map; exact Hin0|].
    now destruct (ns_session_id r0 =? sid)%string.
  - intros r Hin Hid. rewrite db_purged_count in Hin. simpl in Hin.
    apply in_map_iff in Hin as (x & <- & _).
    destruct (String.eqb_spec (ns_session_id x) sid) as [E|N].
    + simpl. split; [reflexivity|].
      rewrite Hlen, count_ok_counts, Hok. reflexivity.
    + contradiction.
Qed.

Lemma purge_five_one_failure_witness :
  let w' := run (end_night_mode Sample.group) Sample.five_captured in
  purge_report (calls_since Sample.five_captured w') = mkReport 5 4 1 /\
  (exists r, In r (night_sessions (db w')) /\ ns_session_id r = "-1001_20250101_2300") /\
  (forall r, In r (night_sessions (db w')) -> ns_session_id r = "-1001_20250101_2300" ->
     ns_is_completed r = 1 /\ ns_message_count r = 4).
Proof.
  apply (purge_five_one_failure Sample.five_captured Sample.group "-1001_20250101_2300");
    reflexivity.
Defined.

(** ** What a tick does to one chat *)

Section TickOnChat.

Lemma checked_loop_chat (now : Clock) (c : Z) (rows : list ChatSettings) :
  forall w,
    sound w -> NoDup (map cs_chat_id rows) ->
    (forall x, In x rows -> In x (chat_settings (db w))) ->
    forall r, In r rows -> cs_chat_id r = c ->
    exists w1,
      sound w1 /\ same_chat c (db w) (db w1) /\ In r (chat_settings (db w1)) /\
      same_chat c (db (checked now w1 r)) (db (fold_left (checked now) rows w)).
Proof.
  induction rows as [|x rows IH]; intros w Hs Hnd Hrows r Hin Hc; [destruct Hin|].
  inversion Hnd as [|? ? Hx Hnd']; subst.
  destruct (checked_step now x w Hs (Hrows x (or_introl eq_refl))) as (Hs1 & _ & Hframe).
  assert (Hrows1 : forall y, In y rows -> In y (chat_settings (db (checked now w x)))).
  { intros y Hy.
    assert (N : cs_chat_id y <> cs_chat_id x)
      by (intros E; apply Hx; rewrite <- E; now apply in_map).
    apply (proj2 (Hframe _ N) y eq_refl). apply Hrows. now right. }
  destruct Hin as [->|Hin].
  - exists w. split; [exact Hs|]. split; [apply same_chat_refl|].
    split; [apply Hrows; now left|]. simpl.
    apply (checked_loop now rows (checked now w r) Hs1 Hnd' Hrows1). exact Hx.
  - assert (N : cs_chat_id r <> cs_chat_id x)
      by (intros E; apply Hx; rewrite <- E; now apply in_map).
    destruct (IH (checked now w x) Hs1 Hnd' Hrows1 r Hin eq_refl)
      as (w1 & Hsw1 & Hsame & Hr1 & Hrest).
    exists w1. split; [exact Hsw1|]. split.
    + eapply same_chat_trans; [apply (Hframe _ N)|exact Hsame].
    + split; [exact Hr1|exact Hrest].
Qed.

(** A tick, seen from the chat of row [r]: whatever the other chats do, the
    rows of this chat change as the loop body on [r] changes them. *)
Lemma tick_on_chat (now : Clock) (w : World) (r : ChatSettings) :
  sound w -> In r (chat_settings (db w)) ->
  let w' := run (background_time_check now) w in
  sound w' /\
  saved_messages (db w') = saved_messages (db w) /\
  exists w1,
    sound w1 /\ same_chat (cs_chat_id r) (db w) (db w1) /\
    In r (chat_settings (db w1)) /\
    same_chat (cs_chat_id r) (db (if selected r then checked now w1 r else w1)) (db w').
Proof.
  intros Hs Hin w'.
  assert (Ew : w' = fold_left (checked now) (Sql.select_enabled_chats (db w)) w)
    by (unfold w', run; now rewrite background_time_check_quiet by apply Hs).
  destruct (selected_rows (db w) (proj2 Hs)) as [Hnd Hrows].
  destruct (checked_loop now _ w Hs Hnd Hrows) as (Hs' & Hsaved & Hframe).
  rewrite Ew. split; [exact Hs'|]. split; [exact Hsaved|].
  destruct (selected r) eqn:Hsel.
  - apply (checked_loop_chat now (cs_chat_id r) _ w Hs Hnd Hrows r); [|reflexivity].
    apply filter_In. split; assumption.
  - exists w. split; [exact Hs|]. split; [apply same_chat_refl|]. split; [exact Hin|].
    apply Hframe. intros Hc. apply in_map_iff in Hc as (x & Hx & Hxin).
    assert (x = r).
    { apply (NoDup_map_In_eq cs_chat_id (chat_settings (db w)));
        [apply (chat_key _ (proj2 Hs))|now apply Hrows|exact Hin|exact Hx]. }
    subst x. apply filter_In in Hxin as [_ Hxin]. unfold selected in Hsel. congruence.
Qed.

Lemma same_chat_active (c : Z) (d d' : DB) :
  same_chat c d d' -> chat_active c d' = chat_active c d.
Proof. intros [A _]. unfold chat_active. now rewrite A. Qed.

Lemma open_rows_of_chat (c : Z) (d : DB) :
  filter (Sql.is_open_for c) (night_sessions d)
  = filter (Sql.is_open_for c) (sessions_of c d).
Proof.
  unfold sessions_of. symmetry. apply filter_skips.
  intros x _ Hx. unfold Sql.is_open_for. now rewrite Hx.
Qed.

Lemma same_chat_open_session (c : Z) (d d' : DB) :
  same_chat c d d' -> Sql.select_open_session c d' = Sql.select_open_session c d.
Proof.
  intros [_ B]. unfold Sql.select_open_session. now rewrite !open_rows_of_chat, B.
Qed.

Lemma same_chat_sessions (c : Z) (d d' : DB) (s : NightSession) :
  same_chat c d d' -> ns_chat_id s = c -> In s (night_sessions d) -> In s (night_sessions d').
Proof.
  intros [_ B] Hc Hin.
  assert (H : In s (sessions_of c d)).
  { apply filter_In. split; [assumption|]. now apply Z.eqb_eq. }
  rewrite <- B in H. now apply filter_In in H.
Qed.

End TickOnChat.

Section Transitions.

Variable now : Clock.
Variable w : World.
Variable r : ChatSettings.
Hypothesis w_sound : sound w.
Hypothesis r_row : Sql.select_chat (cs_chat_id r) (db w) = Some r.

Let c := cs_chat_id r.
Let w' := run (background_time_check now) w.

Lemma row_in_settings : In r (chat_settings (db w)).
Proof. now apply select_chat_Some in r_row. Qed.

(** No trigger: the chat's rows stay. *)
Lemma tick_idle :
  triggers now r = false ->
  sound w' /\ same_chat c (db w) (db w') /\
  saved_messages (db w') = saved_messages (db w).
Proof.
  intros Hidle.
  destruct (tick_on_chat now w r w_sound row_in_settings)
    as (Hs' & Hsaved & w1 & Hs1 & Hsame1 & Hin1 & Hrest).
  fold w' in Hs', Hsaved, Hrest. fold c in Hsame1, Hrest.
  split; [exact Hs'|]. split; [|exact Hsaved].
  apply (same_chat_trans c _ (db w1)); [exact Hsame1|].
  unfold triggers in Hidle.
  destruct (selected r); [|exact Hrest]. simpl in Hidle.
  apply orb_false_iff in Hidle as [H1 H2].
  unfold checked in Hrest. now rewrite H1, H2 in Hrest.
Qed.

(** The start time, flag off: a session opens. *)
Lemma tick_opens :
  selected r = true -> now_hm now = cs_start_time r ->
  truthy (cs_is_night_mode_active r) = false ->
  sound w' /\
  Sql.select_chat c (db w') = Some (Sql.set_activated (now_date now) r) /\
  Sql.select_open_session c (db w') = Some (make_session_id c (now_stamp now)).
Proof.
  intros Hsel Hhm Hflag.
  destruct (tick_on_chat now w r w_sound row_in_settings)
    as (Hs' & _ & w1 & Hs1 & Hsame1 & Hin1 & Hrest).
  fold w' in Hs', Hrest. fold c in Hsame1, Hrest.
  split; [exact Hs'|].
  rewrite Hsel in Hrest. unfold checked in Hrest.
  rewrite Hhm, String.eqb_refl, Hflag in Hrest. simpl in Hrest.
  assert (Hsel1 : Sql.select_chat c (db w1) = Some r)
    by (apply select_chat_In; [apply (chat_key _ (proj2 Hs1))|exact Hin1]).
  split.
  - rewrite (proj1 Hrest). unfold opened. fold c.
    rewrite select_chat_update by apply keeps_set_activated.
    rewrite Z.eqb_refl.
    change (Sql.select_chat c (Sql.insert_or_replace_session _ c (now_iso now)
                                 (cs_end_time r) (db w1)))
      with (Sql.select_chat c (db w1)).
    now rewrite Hsel1.
  - rewrite (same_chat_open_session c _ _ Hrest).
    unfold Sql.select_open_session, opened. simpl. fold c.
    assert (Hzero : filter (Sql.is_open_for c) (night_sessions (db w1)) = []).
    { apply length_zero_iff_nil. fold (open_count c (db w1)).
      rewrite (flag_counts _ (proj2 Hs1)). unfold chat_active. now rewrite Hsel1, Hflag. }
    rewrite filter_app, (filter_filter_nil _ _ _ Hzero). simpl.
    unfold Sql.is_open_for. simpl. now rewrite Z.eqb_refl.
Qed.

(** The end time, flag on: the open session is purged and completed. *)
Lemma tick_closes (sid : string) :
  selected r = true -> now_hm now = cs_end_time r ->
  truthy (cs_is_night_mode_active r) = true ->
  Sql.select_open_session c (db w) = Some sid ->
  sound w' /\
  Sql.select_chat c (db w') = Some (Sql.set_deactivated r) /\
  Sql.select_open_session c (db w') = None /\
  exists s, In s (night_sessions (db w')) /\ ns_session_id s = sid /\
            ns_chat_id s = c /\ ns_is_completed s = 1.
Proof.
  intros Hsel Hhm Hflag Hopen.
  destruct (tick_on_chat now w r w_sound row_in_settings)
    as (Hs' & _ & w1 & Hs1 & Hsame1 & Hin1 & Hrest).
  fold w' in Hs', Hrest. fold c in Hsame1, Hrest.
  split; [exact Hs'|].
  rewrite Hsel in Hrest. unfold checked in Hrest.
  rewrite Hflag, Hhm, String.eqb_refl, andb_false_r in Hrest. simpl in Hrest.
  fold c in Hrest.
  assert (Hopen1 : Sql.select_open_session c (db w1) = Some sid)
    by (now rewrite (same_chat_open_session c _ _ Hsame1)).
  rewrite Hopen1 in Hrest.
  assert (Hsel1 : Sql.select_chat c (db w1) = Some r)
    by (apply select_chat_In; [apply (chat_key _ (proj2 Hs1))|exact Hin1]).
  split; [|split].
  - rewrite (proj1 Hrest), db_purged_count.
    rewrite select_chat_update by apply keeps_set_deactivated.
    rewrite Z.eqb_refl.
    change (Sql.select_chat c (Sql.complete_session _ sid (db w1)))
      with (Sql.select_chat c (db w1)).
    now rewrite Hsel1.
  - rewrite (same_chat_open_session c _ _ Hrest).
    now apply purged_no_open_session.
  - destruct (select_open_session_Some c (db w1) sid Hopen1)
      as (s0 & Hin0 & Hid0 & Hchat0 & _).
    set (s1 := mkNightSession (ns_session_id s0) (ns_chat_id s0) (ns_start_time s0)
                 (ns_end_time s0)
                 (count_ok 0 (take_answers
                                (List.length (Sql.select_session_messages c sid (db w1)))
                                (remote_answers w1))) 1).
    exists s1. split; [|now repeat split].
    apply (same_chat_sessions c _ _ s1 Hrest); [exact Hchat0|].
    rewrite db_purged_count. simpl. apply in_map_iff. exists s0.
    split; [|exact Hin0].
    destruct (String.eqb_spec (ns_session_id s0) sid); [reflexivity|contradiction].
Qed.

End Transitions.

Section Nights.

(** Ticks that do not trigger on the chat's row leave the chat as it is,
    however many they are and whatever the other chats do meanwhile. *)
Lemma ticks_idle (r : ChatSettings) (nows : list Clock) :
  forall w,
    sound w -> Sql.select_chat (cs_chat_id r) (db w) = Some r ->
    Forall (fun now => triggers now r = false) nows ->
    let w' := run_all (map Tick nows) w in
    sound w' /\ same_chat (cs_chat_id r) (db w) (db w') /\
    saved_messages (db w') = saved_messages (db w).
Proof.
  induction nows as [|now nows IH]; intros w Hs Hrow Hidle; cbn [map run_all].
  - split; [exact Hs|]. split; [apply same_chat_refl|reflexivity].
  - inversion Hidle as [|? ? Hnow Hrest]; subst.
    destruct (tick_idle now w r Hs Hrow Hnow) as (Hs1 & Hsame1 & Hsaved1).
    change (run (exec (Tick now)) w) with (run (background_time_check now) w).
    assert (Hrow1 : Sql.select_chat (cs_chat_id r)
                      (db (run (background_time_check now) w)) = Some r)
      by (rewrite (proj1 Hsame1); exact Hrow).
    destruct (IH _ Hs1 Hrow1 Hrest) as (Hs2 & Hsame2 & Hsaved2).
    split; [exact Hs2|]. split.
    + eapply same_chat_trans; eassumption.
    + congruence.
Qed.

Lemma idle_before_start (now : Clock) (r : ChatSettings) :
  truthy (cs_is_night_mode_active r) = false ->
  now_hm now <> cs_start_time r -> triggers now r = false.
Proof.
  intros Hflag Hne. unfold triggers. rewrite Hflag. simpl.
  apply String.eqb_neq in Hne. rewrite Hne. simpl.
  rewrite andb_false_r. simpl. apply andb_false_r.
Qed.

Lemma idle_before_end (now : Clock) (r : ChatSettings) :
  truthy (cs_is_night_mode_active r) = true ->
  now_hm now <> cs_end_time r -> triggers now r = false.
Proof.
  intros Hflag Hne. unfold triggers. rewrite Hflag. simpl.
  apply String.eqb_neq in Hne. rewrite Hne. simpl.
  rewrite andb_false_r. simpl. apply andb_false_r.
Qed.

End Nights.

(** C6.  A window that crosses midnight, for an enabled chat in waiting
    state: ticks whose time of day is not the start time change nothing for
    the chat; the tick at the start time opens a session; the session stays
    open over any number of ticks, on any dates, whose time of day is not
    the end time; the tick at the end time closes it; and it stays closed
    over ticks whose time of day is not the start time.  Only the equality
    of the time of day with the two boundaries is used. *)
Theorem window_across_midnight (w : World) (r : ChatSettings)
    (before between after : list Clock) (t_open t_close : Clock) :
  Reachable w ->
  In r (chat_settings (db w)) ->
  selected r = true ->
  truthy (cs_is_night_mode_active r) = false ->
  String.ltb (cs_end_time r) (cs_start_time r) = true ->
  Forall (fun now => now_hm now <> cs_start_time r) before ->
  now_hm t_open = cs_start_time r ->
  Forall (fun now => now_hm now <> cs_end_time r) between ->
  now_hm t_close = cs_end_time r ->
  Forall (fun now => now_hm now <> cs_start_time r) after ->
  let c := cs_chat_id r in
  let sid := make_session_id c (now_stamp t_open) in
  let w0 := run_all (map Tick before) w in
  let w1 := run (exec (Tick t_open)) w0 in
  let w2 := run_all (map Tick between) w1 in
  let w3 := run (exec (Tick t_close)) w2 in
  let w4 := run_all (map Tick after) w3 in
  (chat_active c (db w0) = false /\ Sql.select_open_session c (db w0) = None) /\
  (chat_active c (db w1) = true /\ Sql.select_open_session c (db w1) = Some sid) /\
  (chat_active c (db w2) = true /\ Sql.select_open_session c (db w2) = Some sid) /\
  (chat_active c (db w3) = false /\ Sql.select_open_session c (db w3) = None /\
   exists s, In s (night_sessions (db w3)) /\ ns_session_id s = sid /\
             ns_is_completed s = 1) /\
  (chat_active c (db w4) = false /\ Sql.select_open_session c (db w4) = None).
Proof.
  intros Hr Hin Hsel Hflag Hcross Hbefore Hopen Hbetween Hclose Hafter c sid w0 w1 w2 w3 w4.
  pose proof (reachable_sound w Hr) as Hs.
  assert (Hrow : Sql.select_chat c (db w) = Some r)
    by (apply select_chat_In; [apply (chat_key _ (proj2 Hs))|exact Hin]).
  assert (Hactive : forall d x, Sql.select_chat c d = Some x ->
                      chat_active c d = truthy (cs_is_night_mode_active x))
    by (intros d x H; unfold chat_active; now rewrite H).
  assert (Hclosed : forall v, sound v -> chat_active c (db v) = false ->
                      Sql.select_open_session c (db v) = None).
  { intros v Hv Hf. apply select_open_session_None.
    rewrite (flag_counts _ (proj2 Hv)). now rewrite Hf. }
  (* waiting *)
  destruct (ticks_idle r before w Hs Hrow) as (Hs0 & Hsame0 & _).
  { eapply Forall_impl; [|exact Hbefore]. intros now Hn.
    apply (idle_before_start now r); [exact Hflag|exact Hn]. }
  fold w0 in Hs0, Hsame0. fold c in Hsame0.
  assert (Hrow0 : Sql.select_chat c (db w0) = Some r) by (now rewrite (proj1 Hsame0)).
  assert (Hflag0 : chat_active c (db w0) = false) by (now rewrite (Hactive _ _ Hrow0)).
  split; [split; [exact Hflag0|now apply Hclosed]|].
  (* the start time *)
  destruct (tick_opens t_open w0 r Hs0 Hrow0 Hsel Hopen Hflag) as (Hs1 & Hrow1 & Hopen1).
  change (run (background_time_check t_open) w0) with w1 in Hs1, Hrow1, Hopen1.
  fold c in Hrow1, Hopen1. fold sid in Hopen1.
  set (r1 := Sql.set_activated (now_date t_open) r) in *.
  assert (Hflag1 : chat_active c (db w1) = true) by (now rewrite (Hactive _ _ Hrow1)).
  split; [split; assumption|].
  (* the night *)
  destruct (ticks_idle r1 between w1 Hs1 Hrow1) as (Hs2 & Hsame2 & _).
  { eapply Forall_impl; [|exact Hbetween]. intros now Hn.
    apply (idle_before_end now r1); [reflexivity|exact Hn]. }
  fold w2 in Hs2, Hsame2. change (cs_chat_id r1) with c in Hsame2.
  assert (Hrow2 : Sql.select_chat c (db w2) = Some r1) by (now rewrite (proj1 Hsame2)).
  assert (Hopen2 : Sql.select_open_session c (db w2) = Some sid)
    by (now rewrite (same_chat_open_session c _ _ Hsame2)).
  split; [split; [now rewrite (Hactive _ _ Hrow2)|exact Hopen2]|].
  (* the end time *)
  destruct (tick_closes t_close w2 r1 Hs2 Hrow2 sid Hsel Hclose eq_refl Hopen2)
    as (Hs3 & Hrow3 & Hopen3 & s & Hs_in & Hs_id & _ & Hs_done).
  change (run (background_time_check t_close) w2) with w3 in Hs3, Hrow3, Hopen3, Hs_in.
  change (cs_chat_id r1) with c in Hrow3, Hopen3.
  set (r3 := Sql.set_deactivated r1) in *.
  split; [split; [now rewrite (Hactive _ _ Hrow3)|split; [exact Hopen3|now exists s]]|].
  (* the day after *)
  destruct (ticks_idle r3 after w3 Hs3 Hrow3) as (Hs4 & Hsame4 & _).
  { eapply Forall_impl; [|exact Hafter]. intros now Hn.
    apply (idle_before_start now r3); [reflexivity|exact Hn]. }
  fold w4 in Hs4, Hsame4. change (cs_chat_id r3) with c in Hsame4.
  assert (Hrow4 : Sql.select_chat c (db w4) = Some r3) by (now rewrite (proj1 Hsame4)).
  assert (Hflag4 : chat_active c (db w4) = false) by (now rewrite (Hactive _ _ Hrow4)).
  split; [exact Hflag4|now apply Hclosed].
Qed.

Lemma Forall_differs (t : string) (nows : list Clock) :
  forallb (fun now => negb (now_hm now =? t)%string) nows = true ->
  Forall (fun now => now_hm now <> t) nows.
Proof.
  intros H. apply Forall_forall. intros now Hin.
  rewrite forallb_forall in H. specialize (H now Hin).
  apply negb_true_iff in H. now apply String.eqb_neq.
Qed.

Lemma window_across_midnight_witness :
  let c := Sample.group in
  let sid := "-1001_20250101_2300" in
  let w0 := run_all (map Tick Sample.t_2259) Sample.configured in
  let w1 := run (exec (Tick Sample.t_2300)) w0 in
  let w2 := run_all (map Tick Sample.t_night) w1 in
  let w3 := run (exec (Tick Sample.t_0500)) w2 in
  let w4 := run_all (map Tick Sample.t_0501) w3 in
  (chat_active c (db w0) = false /\ Sql.select_open_session c (db w0) = None) /\
  (chat_active c (db w1) = true /\ Sql.select_open_session c (db w1) = Some sid) /\
  (chat_active c (db w2) = true /\ Sql.select_open_session c (db w2) = Some sid) /\
  (chat_active c (db w3) = false /\ Sql.select_open_session c (db w3) = None /\
   exists s, In s (night_sessions (db w3)) /\ ns_session_id s = sid /\
             ns_is_completed s = 1) /\
  (chat_active c (db w4) = false /\ Sql.select_open_session c (db w4) = None).
Proof.
  apply (window_across_midnight Sample.configured Sample.group_row
           Sample.t_2259 Sample.t_night Sample.t_0501 Sample.t_2300 Sample.t_0500).
  - exact reachable_sample_configured.
  - left. reflexivity.
  - reflexivity.
  - reflexivity.
  - reflexivity.
  - apply Forall_differs. vm_compute. reflexivity.
  - reflexivity.
  - apply Forall_differs. vm_compute. reflexivity.
  - reflexivity.
  - apply Forall_differs. vm_compute. reflexivity.
Defined.

(** ** A tick at the start time of a chat that is already active *)

Lemma reachable_sample_degenerate : Reachable Sample.degenerate.
Proof.
  unfold Sample.degenerate. cbn [run_all].
  repeat (apply reach_step; [|first [exact I|reflexivity]]).
  apply reach_start.
Defined.

(** C8, as stated, fails: the group's start time equals its end time and its
    session is open; at the tick whose time of day is the start time the
    flag is on, and the tick closes the session: the ledger row is marked
    completed and the flag is cleared. *)
Lemma tick_at_start_closes_degenerate_window :
  let w := Sample.degenerate in
  let now := Sample.clock_at 3180 in
  let w' := run (background_time_check now) w in
  Reachable w /\
  In (mkChatSettings Sample.group None 1 "05:00" "05:00" default_welcome_message 1
        (Some "2025-01-01T10:00:00.000000") (Some "2025-01-02") 1)
     (Sql.select_enabled_chats (db w)) /\
  now_hm now = "05:00" /\
  chat_active Sample.group (db w) = true /\
  night_sessions (db w) <> night_sessions (db w') /\
  chat_active Sample.group (db w') = false.
Proof.
  split; [exact reachable_sample_degenerate|].
  split; [left; reflexivity|]. split; [reflexivity|]. split; [reflexivity|].
  split; [discriminate|reflexivity].
Qed.

(** C8, amended.  For a chat whose flag is on, at a tick whose time of day is
    the chat's start time and differs from its end time: the loop body on
    the chat's row does nothing at all, and the whole tick, whatever it does
    for other chats, leaves the chat's settings row, the chat's rows of the
    ledger (so their message counts), the retention store and the count of
    captured messages of every session unchanged. *)
Theorem tick_at_start_while_active (w : World) (r : ChatSettings) (now : Clock) :
  Reachable w ->
  In r (chat_settings (db w)) ->
  truthy (cs_is_night_mode_active r) = true ->
  now_hm now = cs_start_time r ->
  cs_start_time r <> cs_end_time r ->
  let c := cs_chat_id r in
  let w' := run (background_time_check now) w in
  check_chat now r w = (Returned tt, w) /\
  Sql.select_chat c (db w') = Some r /\
  sessions_of c (db w') = sessions_of c (db w) /\
  saved_messages (db w') = saved_messages (db w) /\
  forall sid, Sql.count_session_messages c sid (db w')
              = Sql.count_session_messages c sid (db w).
Proof.
  intros Hr Hin Hflag Hhm Hne c w'.
  pose proof (reachable_sound w Hr) as Hs.
  assert (Hrow : Sql.select_chat c (db w) = Some r)
    by (apply select_chat_In; [apply (chat_key _ (proj2 Hs))|exact Hin]).
  assert (Hends : (now_hm now =? cs_end_time r)%string = false)
    by (apply String.eqb_neq; congruence).
  assert (Hidle : triggers now r = false).
  { unfold triggers. rewrite Hflag, Hends. simpl.
    rewrite andb_false_r. apply andb_false_r. }
  destruct (tick_idle now w r Hs Hrow Hidle) as (_ & [Hsame1 Hsame2] & Hsaved).
  fold w' in Hsame1, Hsame2, Hsaved. fold c in Hsame1, Hsame2.
  split.
  - rewrite check_chat_quiet by apply Hs. unfold checked.
    now rewrite Hflag, Hends, andb_false_r.
  - split; [now rewrite Hsame1|]. split; [exact Hsame2|]. split; [exact Hsaved|].
    intros sid. unfold Sql.count_session_messages. now rewrite Hsaved.
Qed.

Lemma tick_at_start_while_active_witness :
  let w := Sample.in_session in
  let now := Sample.clock_at 2820 in
  let w' := run (background_time_check now) w in
  now_hm now = "23:00" /\
  chat_active Sample.group (db w) = true /\
  sessions_of Sample.group (db w') = sessions_of Sample.group (db w) /\
  saved_messages (db w') = saved_messages (db w).
Proof.
  split; [reflexivity|]. split; [reflexivity|].
  assert (Hne : "23:00" <> "05:00") by discriminate.
  pose proof (tick_at_start_while_active Sample.in_session
                (mkChatSettings Sample.group None 1 "23:00" "05:00"
                   default_welcome_message 1 (Some "2025-01-01T10:00:00.000000")
                   (Some "2025-01-01") 1)
                (Sample.clock_at 2820) reachable_sample_in_session
                (or_introl eq_refl) eq_refl eq_refl Hne) as H.
  split; apply H.
Defined.

(** ** The retention store *)

Section Retention.

Lemma same_store_refl (w : World) : same_store w w.
Proof. reflexivity. Qed.

Lemma same_store_trans (w1 w2 w3 : World) :
  same_store w1 w2 -> same_store w2 w3 -> same_store w1 w3.
Proof. unfold same_store. congruence. Qed.

Lemma query_same_store {A} (q : DB -> A) : steps same_store (query q).
Proof. intros w. unfold query. now destruct (next_fault w). Qed.

Lemma request_same_store (c : Call) : steps same_store (request c).
Proof. intros w. reflexivity. Qed.

Lemma execute_same_store (stmt : DB -> DB) :
  (forall d, saved_messages (stmt d) = saved_messages d) ->
  steps same_store (execute stmt).
Proof.
  intros H w. unfold execute, same_store. destruct (next_fault w); [reflexivity|apply H].
Qed.

End Retention.

Ltac step_same_store :=
  repeat first
    [ progress walk same_store_refl same_store_trans
    | apply query_same_store
    | apply request_same_store
    | apply execute_same_store; intros; reflexivity ].

Section RetentionOfMethods.

Lemma delete_all_same_store (c : Z) (messages : list Z) :
  forall acc, steps same_store (delete_all c messages acc).
Proof.
  induction messages as [|m ms IH]; intros acc; simpl.
  - step_same_store.
  - unfold delete_message. step_same_store. apply IH.
Qed.

(** A purge deletes remotely and never from the store, also when the store
    raises in the middle of it. *)
Lemma end_night_mode_same_store (c : Z) : steps same_store (end_night_mode c).
Proof.
  unfold_methods. repeat first [progress step_same_store | apply delete_all_same_store].
Qed.

Lemma background_time_check_same_store (now : Clock) :
  steps same_store (background_time_check now).
Proof.
  unfold_methods. repeat first [progress step_same_store | apply delete_all_same_store].
Qed.

Lemma show_group_status_same_store (c : Z) : steps same_store (show_group_status c).
Proof. unfold_handlers. step_same_store. Qed.

Lemma test_night_same_store (c : Z) : steps same_store (test_night c).
Proof. unfold_handlers. step_same_store. Qed.

End RetentionOfMethods.

(** C10.  A purge never removes a row of [saved_messages]: after
    [end_night_mode], and after a whole tick, the retention store is the one
    before, whether or not statements raise; and every operation of the bot,
    and so every run, leaves a store that extends the previous one. *)
Theorem retention_store_only_grows :
  (forall w chat_id,
     saved_messages (db (run (end_night_mode chat_id) w)) = saved_messages (db w)) /\
  (forall w now,
     saved_messages (db (run (background_time_check now) w)) = saved_messages (db w)) /\
  (forall w op, exists new,
     saved_messages (db (run (exec op) w)) = saved_messages (db w) ++ new) /\
  (forall w ops, exists new,
     saved_messages (db (run_all ops w)) = saved_messages (db w) ++ new).
Proof.
  split; [|split; [|split]].
  - intros w c. apply (end_night_mode_same_store c w).
  - intros w now. apply (background_time_check_same_store now w).
  - intros w op. destruct (exec_grows op w) as (new & E & _). now exists new.
  - intros w ops. destruct (run_all_grows ops w) as (new & E & _). now exists new.
Qed.

(** C9.  Whatever text comes in, [save_message] adds to the store only rows
    whose text has at most 500 characters, whether or not statements raise;
    when none raises it adds one row, whose text is the first 500 characters
    of the incoming one; and in every run of the bot from an empty database
    all stored texts have at most 500 characters. *)
Theorem stored_text_bounded :
  (forall w now chat_id message_id user_id text type sid, exists new,
     saved_messages (db (run (save_message now chat_id message_id user_id text type sid) w))
     = saved_messages (db w) ++ new /\
     Forall (fun m => (String.length (sm_message_text m) <= 500)%nat) new) /\
  (forall d answers sent now chat_id message_id user_id text type sid, exists m,
     saved_messages
       (db (run (save_message now chat_id message_id user_id text type sid)
              (mkWorld d [] answers sent)))
     = saved_messages d ++ [m] /\
     sm_message_text m = PyStr.slice_to 500 text /\
     String.length (sm_message_text m) = Nat.min 500 (String.length text)) /\
  (forall ops faults answers,
     Forall (fun m => (String.length (sm_message_text m) <= 500)%nat)
       (saved_messages (db (run_all ops (world_of empty_db faults answers))))).
Proof.
  split; [|split].
  - intros w now c mid u text type sid.
    assert (H : steps store_grows (save_message now c mid u text type sid))
      by (unfold_handlers; step_grows).
    apply (H w).
  - intros d answers sent now c mid u text type sid.
    eexists. split; [reflexivity|]. split; [reflexivity|].
    cbv beta iota zeta delta [sm_message_text]. apply slice_to_length.
  - intros ops faults answers.
    destruct (run_all_grows ops (world_of empty_db faults answers)) as (new & E & F).
    rewrite E. exact F.
Qed.

(** ** From capture to purge *)

Section Capture.

Lemma no_append {A} (l : list A) (a : A) : l <> l ++ [a].
Proof.
  intros E. apply (f_equal (@List.length A)) in E.
  rewrite length_app in E. simpl in E. lia.
Qed.

(** When the capture stores a row, the row carries the chat's open session. *)
Lemma capture_saves (now : Clock) (text : string) (user chat mid : Z) (type : string)
    (w : World) (m : SavedMessage) :
  quiet w ->
  saved_messages (db (run (capture now text user chat mid type) w))
  = saved_messages (db w) ++ [m] ->
  exists sid,
    chat_active chat (db w) = true /\
    Sql.select_open_session chat (db w) = Some sid /\
    m = mkSavedMessage (saved_messages_seq (db w) + 1) chat mid user
          (PyStr.slice_to 500 text) type (now_iso now) sid.
Proof.
  intros Hq. unfold run, capture, get_chat_settings, get_current_session, bind, chat_active.
  rewrite query_quiet by assumption.
  destruct (Sql.select_chat chat (db w)) as [st|];
    [|simpl; intros H; now apply no_append in H].
  destruct (truthy (cs_is_night_mode_active st));
    [|simpl; intros H; now apply no_append in H].
  rewrite query_quiet by assumption.
  destruct (Sql.select_open_session chat (db w)) as [sid|];
    [|simpl; intros H; now apply no_append in H].
  destruct (PyStr.nonempty sid);
    [|simpl; intros H; now apply no_append in H].
  rewrite save_message_quiet by assumption. simpl. intros H.
  apply app_inv_head in H. injection H as <-. now exists sid.
Qed.

Lemma handle_group_message_saves (now : Clock) (text : string) (user chat mid : Z)
    (type : string) (w : World) (m : SavedMessage) :
  quiet w ->
  saved_messages (db (run (handle_group_message now text user chat mid type) w))
  = saved_messages (db w) ++ [m] ->
  exists sid,
    chat_active chat (db w) = true /\
    Sql.select_open_session chat (db w) = Some sid /\
    m = mkSavedMessage (saved_messages_seq (db w) + 1) chat mid user
          (PyStr.slice_to 500 text) type (now_iso now) sid.
Proof.
  intros Hq. unfold handle_group_message.
  assert (Hcmd : forall (cmd : M bool),
             steps same_store cmd ->
             saved_messages (db (run cmd w)) = saved_messages (db w) ++ [m] -> False).
  { intros cmd Hcmd H. specialize (Hcmd w). unfold same_store in Hcmd.
    unfold run in H. rewrite Hcmd in H. now apply no_append in H. }
  destruct (type =? "text")%string; [|now apply capture_saves].
  destruct (text =? "/id")%string.
  { intros H. exfalso. revert H. apply Hcmd. unfold_handlers. step_same_store. }
  destruct (text =? "/start")%string.
  { intros H. exfalso. revert H. apply Hcmd. unfold_handlers. step_same_store. }
  destruct (text =? "/status")%string.
  { intros H. exfalso. revert H. apply Hcmd.
    repeat first [progress step_same_store | apply show_group_status_same_store]. }
  destruct (text =? "/test_night")%string.
  { intros H. exfalso. revert H. apply Hcmd.
    repeat first [progress step_same_store | apply test_night_same_store]. }
  destruct (text =? "/force_cleanup")%string; [|now apply capture_saves].
  unfold run, bind at 1, is_user_admin, request.
  destruct (next_answer w).
  - intros H. exfalso.
    pose proof (end_night_mode_same_store chat) as Hend.
    set (w2 := mkWorld (db w) (store_faults w) (tl (remote_answers w))
                 (outbox w ++ [(GetChatAdministrators chat user, true)])) in *.
    assert (Hs : steps same_store (end_night_mode chat ;;; ret true))
      by (repeat first [progress step_same_store | apply end_night_mode_same_store]).
    specialize (Hs w2). unfold same_store in Hs. simpl in Hs.
    rewrite Hs in H. now apply no_append in H.
  - intros H.
    apply (capture_saves now text user chat mid type
             (mkWorld (db w) (store_faults w) (tl (remote_answers w))
                (outbox w ++ [(GetChatAdministrators chat user, false)])) m Hq H).
Qed.

End Capture.

(** C7.  A message stored by the capture path while session [sid] of its
    chat is open carries that session; and in any later world that still
    holds the row, a purge of session [sid'] attempts, next to the other
    rows of that session, this row once when [sid'] is [sid] and not at all
    when it is another session. *)
Theorem captured_message_counted_once (w : World) (now : Clock) (text : string)
    (user chat mid : Z) (type : string) (m : SavedMessage) :
  Reachable w ->
  saved_messages (db (run (handle_group_message now text user chat mid type) w))
  = saved_messages (db w) ++ [m] ->
  exists sid,
    Sql.select_open_session chat (db w) = Some sid /\
    sm_chat_id m = chat /\ sm_message_id m = mid /\ sm_night_mode_session m = sid /\
    forall v before after chat' sid',
      Reachable v ->
      saved_messages (db v) = before ++ m :: after ->
      Sql.select_open_session chat' (db v) = Some sid' ->
      attempted (purge_report (calls_since v (run (end_night_mode chat') v)))
      = (List.length (filter (Sql.in_session chat' sid') (before ++ after))
         + (if (sid' =? sid)%string then 1 else 0))%nat.
Proof.
  intros Hr Hsaved. pose proof (reachable_sound w Hr) as Hs.
  destruct (handle_group_message_saves now text user chat mid type w m (proj1 Hs) Hsaved)
    as (sid & _ & Hopen & ->).
  exists sid. repeat split; try assumption.
  intros v before after chat' sid' Hv Hstore Hopen'.
  pose proof (reachable_sound v Hv) as Hsv.
  unfold run. rewrite end_night_mode_quiet by apply Hsv. rewrite Hopen'. cbn [snd].
  rewrite purge_report_purged. cbn [attempted].
  unfold Sql.select_session_messages. rewrite length_map, Hstore, !filter_app, !length_app.
  simpl. unfold Sql.in_session at 2. simpl.
  destruct (String.eqb_spec sid' sid) as [E|N].
  - subst sid'.
    destruct (select_open_session_Some chat (db w) sid Hopen) as (s & Hin & Hid & Hchat & _).
    destruct (select_open_session_Some chat' (db v) sid Hopen')
      as (s' & Hin' & Hid' & Hchat' & _).
    destruct (session_ids _ (proj2 Hs) s Hin) as [stamp Hstamp].
    rewrite Hid, Hchat in Hstamp.
    pose proof (session_row_chat (db v) s' chat stamp (proj2 Hsv) Hin'
                  (eq_trans Hid' Hstamp)) as Hsame.
    replace chat' with chat by congruence.
    rewrite Z.eqb_refl, String.eqb_refl. simpl. lia.
  - destruct (String.eqb_spec sid sid'); [congruence|].
    rewrite andb_false_r. simpl. lia.
Qed.

Lemma captured_message_counted_once_witness :
  attempted (purge_report
               (calls_since Sample.five_captured
                  (run (end_night_mode Sample.group) Sample.five_captured)))
  = (4 + 1)%nat.
Proof.
  destruct (captured_message_counted_once Sample.in_session Sample.at_night "good night"
              42 Sample.group 1 "text"
              (mkSavedMessage 1 Sample.group 1 42 "good night" "text"
                 "2025-01-01T23:30:00.000000" "-1001_20250101_2300")
              reachable_sample_in_session eq_refl)
    as (sid & Hopen & _ & _ & _ & Hcount).
  vm_compute in Hopen. injection Hopen as <-.
  exact (Hcount Sample.five_captured []
           (tl (saved_messages (db Sample.five_captured)))
           Sample.group "-1001_20250101_2300"
           reachable_sample_five_captured eq_refl eq_refl).
Defined.

(** ** The time settings *)

(** C2, as stated, fails: the end time of the group is 05:00; the start time
    05:00 is sent; the write is answered as done, and the stored window has
    its start equal to its end. *)
Lemma degenerate_window_is_stored :
  let w := Sample.configured in
  let result := handle_time_input "waiting_time_start" (Some Sample.group)
                  Sample.admin_chat "05:00" w in
  Sql.select_chat Sample.group (db w) = Some Sample.group_row /\
  cs_end_time Sample.group_row = "05:00" /\
  fst result = Returned true /\
  In (SendMessage Sample.admin_chat (TimeSet true "05:00"), true) (outbox (snd result)) /\
  exists r, Sql.select_chat Sample.group (db (snd result)) = Some r /\
            cs_start_time r = "05:00" /\ cs_end_time r = "05:00".
Proof.
  split; [reflexivity|]. split; [reflexivity|]. split; [reflexivity|].
  split; [vm_compute; tauto|].
  eexists. split; [reflexivity|]. split; reflexivity.
Qed.

(** C2, amended.  While the store raises nothing, a time sent for a chat is
    refused exactly when [is_valid_time] refuses its text; a valid text is
    written to the start or the end time of the chat as it is, whatever the
    other boundary of the window, so a text equal to the other boundary is
    stored and the window is degenerate; a refused text changes nothing and
    is answered with the format error. *)
Theorem time_input_checks_format_only (w : World) (state : string) (target chat : Z)
    (text : string) :
  quiet w -> truthy target = true ->
  let result := handle_time_input state (Some target) chat text w in
  fst result = Returned true /\
  db (snd result) =
    (if is_valid_time text
     then Sql.update_chat target
            (if PyStr.contains "start" state
             then Sql.set_start_time text else Sql.set_end_time text) (db w)
     else db w) /\
  (is_valid_time text = false ->
   calls_since w (snd result) = [(SendMessage chat BadTimeFormat, next_answer w)]) /\
  (is_valid_time text = true -> PyStr.contains "start" state = true ->
   forall r, Sql.select_chat target (db w) = Some r -> cs_end_time r = text ->
     exists r', Sql.select_chat target (db (snd result)) = Some r' /\
                cs_start_time r' = cs_end_time r').
Proof.
  intros Hq Ht. destruct w as [d fs ans ob]. unfold quiet in Hq. simpl in Hq. subst fs.
  unfold handle_time_input. rewrite Ht.
  destruct (is_valid_time text) eqn:Hvalid.
  - destruct (PyStr.contains "start" state) eqn:Hstart; cbn [fst snd];
      (split; [reflexivity|]); (split; [reflexivity|]);
      (split; [discriminate|]); try discriminate.
    intros _ _ r Hr He.
    exists (Sql.set_start_time text r). split; [|now simpl].
    change (db (snd _)) with (Sql.update_chat target (Sql.set_start_time text) d).
    rewrite select_chat_update by apply keeps_set_start_time.
    rewrite Z.eqb_refl. simpl in Hr. now rewrite Hr.
  - cbn [fst snd]. split; [reflexivity|]. split; [reflexivity|].
    split; [|discriminate]. intros _. unfold calls_since. simpl.
    apply skipn_own_length.
Qed.

Lemma time_input_checks_format_only_witness :
  let result := handle_time_input "waiting_time_end" (Some Sample.group)
                  Sample.admin_chat "23:00" Sample.configured in
  fst result = Returned true /\
  db (snd result) =
    Sql.update_chat Sample.group (Sql.set_end_time "23:00") (db Sample.configured).
Proof.
  destruct (time_input_checks_format_only Sample.configured "waiting_time_end"
              Sample.group Sample.admin_chat "23:00" eq_refl eq_refl) as (H1 & H2 & _).
  split; [exact H1|exact H2].
Defined.

(** ** Store failures during a tick *)

Section Isolation.

(** [end_night_mode] catches what its statements raise. *)
Lemma end_night_mode_returns (c : Z) (w : World) :
  fst (end_night_mode c w) = Returned tt.
Proof.
  unfold end_night_mode, try_except.
  match goal with |- context [match ?m w with _ => _ end] =>
    destruct (m w) as [[[]|e] w1] end; reflexivity.
Qed.

(** A tick always returns: the loop of [background_time_check] survives. *)
Lemma background_time_check_returns (now : Clock) (w : World) :
  fst (background_time_check now w) = Returned tt.
Proof.
  unfold background_time_check, try_except.
  match goal with |- context [match ?m w with _ => _ end] =>
    destruct (m w) as [[[]|e] w1] end; reflexivity.
Qed.

End Isolation.

(** C5 on the code.  Two enabled groups wait for 23:00.  At the tick of
    23:00 the SELECT succeeds and the INSERT of the session of the group
    that comes first raises: the tick ends there, and the other group, whose
    own statements would all have succeeded, gets no session and stays
    inactive, while the same tick without the fault opens its session.  A
    fault in the closing of the first group's session, on the contrary, is
    caught inside [end_night_mode] and the other group's session is
    closed. *)
Theorem store_error_in_opening_aborts_tick :
  let w := Sample.two_configured in
  let faulty := mkWorld (db w) [false; true] [] [] in
  let w_ok := run (background_time_check Sample.t_2300) w in
  let w_bad := run (background_time_check Sample.t_2300) faulty in
  map cs_chat_id (Sql.select_enabled_chats (db w)) = [Sample.group2; Sample.group] /\
  (chat_active Sample.group (db w_ok) = true /\
   Sql.select_open_session Sample.group (db w_ok) = Some "-1001_20250101_2300") /\
  (fst (background_time_check Sample.t_2300 faulty) = Returned tt /\
   store_faults w_bad = [] /\
   chat_active Sample.group (db w_bad) = false /\
   Sql.select_open_session Sample.group (db w_bad) = None) /\
  (let closing := mkWorld (db w_ok) [false; false; true] [] [] in
   let w_end := run (background_time_check Sample.t_0500) closing in
   Sql.select_open_session Sample.group2 (db w_end) = Some "-1002_20250101_2300" /\
   Sql.select_open_session Sample.group (db w_end) = None /\
   chat_active Sample.group (db w_end) = false).
Proof.
  split; [reflexivity|]. split; [split; reflexivity|].
  split; [repeat split; reflexivity|].
  repeat split; reflexivity.
Qed.
